(** * Transaction history of the wallet API

    A shallow embedding of [src/wallet/api/transaction_history.cpp]
    (class [TransactionHistoryImpl]) and the properties of its readers
    ([count], [transaction], [getAll]) and of [refresh].

    Conventions of the embedding:
    - [uint64_t], [unsigned] and [int] values are integers in [Z]; every
      arithmetic operation of the source that can leave the range of its
      type is followed by the reduction the type performs;
    - [std::string] is [string]; [std::vector] and [std::list] are [list];
    - a C++ exception is the [Throw] case of [result]; a member function
      that mutates [m_history] is a function from the vector before the
      call to an outcome and the vector after it (the vector keeps what it
      held at the point of the throw);
    - a [TransactionInfo*] that may be [nullptr] is an [option]. *)

From Stdlib Require Import ZArith List String Ascii Bool Lia Permutation.
Import ListNotations.

Local Open Scope Z_scope.

(** ** Machine integers *)

Definition UINT64_MAX : Z := 2 ^ 64 - 1.
Definition INT_MAX : Z := 2 ^ 31 - 1.
Definition INT_MIN : Z := - 2 ^ 31.

(** Result of an [uint64_t] operation: reduction modulo 2^64. *)
Definition u64 (z : Z) : Z := z mod 2 ^ 64.

(** [static_cast<unsigned>(z)]. *)
Definition to_unsigned (z : Z) : Z := z mod 2 ^ 32.

(** Conversion of a [size_t] to [int] ([int result = m_history.size()]):
    the value itself when it fits, the two's complement reduction
    otherwise. *)
Definition to_int (z : Z) : Z := (z + 2 ^ 31) mod 2 ^ 32 - 2 ^ 31.

Definition is_uint64 (z : Z) : Prop := 0 <= z <= UINT64_MAX.
Definition is_int (z : Z) : Prop := INT_MIN <= z <= INT_MAX.

(** ** Exceptions *)

Inductive exn : Type :=
| out_of_range                 (* std::out_of_range, from std::string::substr *)
| wallet_error (what : string) (* anything a call into the wallet throws *).

Inductive result (A : Type) : Type :=
| Ok (a : A)
| Throw (e : exn).
Arguments Ok {A} a.
Arguments Throw {A} e.

Definition bindR {A B} (r : result A) (k : A -> result B) : result B :=
  match r with
  | Ok a => k a
  | Throw e => Throw e
  end.

Notation "'let?' x ':=' c 'in' k" := (bindR c (fun x => k))
  (at level 10, x name, c at level 100, k at level 200).

(** [mapR f l] evaluates [f] on the elements of [l] from left to right and
    stops at the first throw. *)
Fixpoint mapR {A B} (f : A -> result B) (l : list A) : result (list B) :=
  match l with
  | [] => Ok []
  | x :: l' => let? y := f x in let? ys := mapR f l' in Ok (y :: ys)
  end.

(** ** The parts of [std::string] the source uses *)

Module StdString.

Fixpoint drop (n : nat) (s : string) : string :=
  match n, s with
  | O, _ => s
  | S _, EmptyString => EmptyString
  | S n', String _ s' => drop n' s'
  end.

Fixpoint take (n : nat) (s : string) : string :=
  match n, s with
  | O, _ => EmptyString
  | S _, EmptyString => EmptyString
  | S n', String a s' => String a (take n' s')
  end.

(** [s.substr(pos)]: throws when [pos > s.size()]. *)
Definition substr_from (s : string) (pos : nat) : result string :=
  if (String.length s <? pos)%nat then Throw out_of_range
  else Ok (drop pos s).

(** [s.substr(pos, count)]: throws when [pos > s.size()], and stops at
    the end of [s]. *)
Definition substr (s : string) (pos count : nat) : result string :=
  if (String.length s <? pos)%nat then Throw out_of_range
  else Ok (take count (drop pos s)).

(** [s.find_first_not_of(c)]; [None] is [std::string::npos]. *)
Fixpoint find_first_not_of (s : string) (c : ascii) : option nat :=
  match s with
  | EmptyString => None
  | String a s' =>
      if Ascii.eqb a c then option_map S (find_first_not_of s' c)
      else Some O
  end.

End StdString.

(** ** Types of the wallet

    The declarations of these types are in headers outside this file; a
    record keeps the members that [refresh] reads.  [hash] stands for
    [crypto::hash] and [network_type] for [cryptonote::network_type]. *)

Module pay_type.
(** Modelled from the spec: the enumeration [wallet::pay_type], declared
    outside this file.  The source names [service_node], [miner] and
    [stake]; [other] stands for every remaining enumerator. *)
Inductive t : Type := service_node | miner | stake | other (tag : nat).

Definition eqb (a b : t) : bool :=
  match a, b with
  | service_node, service_node | miner, miner | stake, stake => true
  | other m, other n => Nat.eqb m n
  | _, _ => false
  end.
End pay_type.

Module reward_type.
Inductive t : Type := unspecified | miner | service_node.
End reward_type.

Inductive Direction : Type := Direction_In | Direction_Out.

Record subaddress_index : Type := { major : Z; minor : Z }.

Module tx_destination_entry.
(** [address] is the member function [address(nettype, payment_id)]. *)
Record t {hash network_type : Type} : Type := mk {
  amount : Z;
  address : network_type -> hash -> result string
}.
Arguments t : clear implicits.
End tx_destination_entry.

Module payment_details.
Record t {hash : Type} : Type := mk {
  m_tx_hash : hash;
  m_amount : Z;
  m_block_height : Z;
  m_unlock_time : Z;
  m_timestamp : Z;
  m_subaddr_index : subaddress_index;
  m_type : pay_type.t
}.
Arguments t : clear implicits.
End payment_details.

Module confirmed_transfer_details.
Record t {hash network_type : Type} : Type := mk {
  m_amount_in : Z;
  m_amount_out : Z;
  m_change : Z;
  m_block_height : Z;
  m_dests : list (tx_destination_entry.t hash network_type);
  m_payment_id : hash;
  m_timestamp : Z;
  m_subaddr_account : Z;
  m_subaddr_indices : list Z;   (* std::set<uint32_t>, in ascending order *)
  m_pay_type : pay_type.t
}.
Arguments t : clear implicits.
End confirmed_transfer_details.

Module unconfirmed_transfer_details.
(** Modelled from the spec: the state of a pending transfer, declared
    outside this file ("OutgoingTransfer with state{Pending, Failed}"). *)
Inductive state : Type := pending | failed.

Definition state_eqb (a b : state) : bool :=
  match a, b with
  | pending, pending | failed, failed => true
  | _, _ => false
  end.

Record t {hash : Type} : Type := mk {
  m_amount_in : Z;
  m_amount_out : Z;
  m_change : Z;
  m_state : state;
  m_payment_id : hash;
  m_timestamp : Z;
  m_subaddr_account : Z;
  m_subaddr_indices : list Z;   (* std::set<uint32_t>, in ascending order *)
  m_pay_type : pay_type.t
}.
Arguments t : clear implicits.
End unconfirmed_transfer_details.

Module pool_payment_details.
Record t {hash : Type} : Type := mk {
  m_pd : payment_details.t hash
}.
Arguments t : clear implicits.
End pool_payment_details.

(** [tools::wallet2]: the queries [refresh] makes.  Each of them may throw. *)
Module wallet2.
Record t {hash network_type : Type} : Type := mk {
  get_payments :
    Z -> Z -> result (list (hash * payment_details.t hash));
  get_payments_out :
    Z -> Z ->
    result (list (hash * confirmed_transfer_details.t hash network_type));
  get_unconfirmed_payments_out :
    result (list (hash * unconfirmed_transfer_details.t hash));
  get_unconfirmed_payments :
    result (list (hash * pool_payment_details.t hash));
  get_subaddress_label : subaddress_index -> result string;
  nettype : result network_type
}.
Arguments t : clear implicits.
End wallet2.

(** [WalletImpl], as [m_wallet] is used here. *)
Module WalletImpl.
Record t {hash network_type : Type} : Type := mk {
  blockChainHeight : result Z;
  wallet : wallet2.t hash network_type
}.
Arguments t : clear implicits.
End WalletImpl.

(** ** [TransactionInfoImpl] *)

Record TransactionInfoImpl : Type := {
  m_direction : Direction;
  m_pending : bool;
  m_failed : bool;
  m_reward_type : reward_type.t;
  m_is_stake : bool;
  m_amount : Z;
  m_fee : Z;
  m_blockheight : Z;
  m_subaddrIndex : list Z;
  m_subaddrAccount : Z;
  m_label : string;
  m_hash : string;
  m_timestamp : Z;
  m_paymentid : string;
  m_transfers : list (Z * string);
  m_confirmations : Z;
  m_unlock_time : Z
}.

(** Modelled from the spec: the object [new TransactionInfoImpl()] yields;
    the constructor is outside this file.  The spec gives the defaults:
    the three booleans false, the reward type unspecified, the fee zero,
    the block height zero, no transfers, an empty label. *)
Definition new_TransactionInfoImpl : TransactionInfoImpl :=
  {| m_direction := Direction_Out;
     m_pending := false;
     m_failed := false;
     m_reward_type := reward_type.unspecified;
     m_is_stake := false;
     m_amount := 0;
     m_fee := 0;
     m_blockheight := 0;
     m_subaddrIndex := [];
     m_subaddrAccount := 0;
     m_label := EmptyString;
     m_hash := EmptyString;
     m_timestamp := 0;
     m_paymentid := EmptyString;
     m_transfers := [];
     m_confirmations := 0;
     m_unlock_time := 0 |}.

(** ** Member functions that change [m_history] *)

Definition history : Type := list TransactionInfoImpl.

Definition action (A : Type) : Type := history -> result A * history.

Definition ret {A} (a : A) : action A := fun h => (Ok a, h).

Definition bind {A B} (c : action A) (k : A -> action B) : action B :=
  fun h =>
    match c h with
    | (Ok a, h') => k a h'
    | (Throw e, h') => (Throw e, h')
    end.

(** A call that does not touch [m_history]. *)
Definition call {A} (r : result A) : action A := fun h => (r, h).

(** [m_history.clear()], after the [delete] of every element. *)
Definition clear : action unit := fun _ => (Ok tt, []).

(** [m_history.push_back(ti)]. *)
Definition push_back (ti : TransactionInfoImpl) : action unit :=
  fun h => (Ok tt, h ++ [ti]).

Notation "x <- c ;; k" := (bind c (fun x => k))
  (at level 100, c at next level, right associativity).
Notation "c ;; k" := (bind c (fun _ => k))
  (at level 100, right associativity).

(** A [for] loop over a [std::list]. *)
Fixpoint for_each {A} (body : A -> action unit) (l : list A) : action unit :=
  match l with
  | [] => ret tt
  | i :: l' => body i ;; for_each body l'
  end.

(** ** The readers *)

(** [count()]. *)
Definition count (m_history : history) : Z :=
  to_int (Z.of_nat (List.length m_history)).

(** [transaction(int index)]. *)
Definition transaction (m_history : history) (index : Z)
  : option TransactionInfoImpl :=
  if index <? 0 then None
  else
    let index_ := to_unsigned index in
    if index_ <? Z.of_nat (List.length m_history)
    then nth_error m_history (Z.to_nat index_)
    else None.

(** [transaction(std::string_view id)]. *)
Definition transaction_by_id (m_history : history) (id : string)
  : option TransactionInfoImpl :=
  find (fun ti => String.eqb (m_hash ti) id) m_history.

(** [getAll()]. *)
Definition getAll (m_history : history) : list TransactionInfoImpl :=
  m_history.

(** [from_pay_type]. *)
Definition from_pay_type (ptype : pay_type.t) : reward_type.t :=
  match ptype with
  | pay_type.service_node => reward_type.service_node
  | pay_type.miner => reward_type.miner
  | _ => reward_type.unspecified
  end.

(** ** [refresh] *)

(** [tools::type_to_hex], from [common/hex.h], at the type [hash]. *)
Class ToHex (hash : Type) : Type := type_to_hex : hash -> string.

Section Refresh.

Context {hash network_type : Type} {hex : ToHex hash}.

(** The payment id as the history shows it (the same three lines in each
    of the four loops):
<<
    if (payment_id.substr(16).find_first_not_of('0') == std::string::npos)
        payment_id = payment_id.substr(0, 16);
>> *)
Definition display_payment_id (payment_id : string) : result string :=
  let? tail := StdString.substr_from payment_id 16 in
  match StdString.find_first_not_of tail "0"%char with
  | None => StdString.substr payment_id 0 16
  | Some _ => Ok payment_id
  end.

(** The label of an outgoing transfer:
    [size() == 1 ? get_subaddress_label({account, *begin()}) : ""]. *)
Definition label_of_indices (w : wallet2.t hash network_type)
    (m_subaddr_account : Z) (m_subaddr_indices : list Z) : result string :=
  if (List.length m_subaddr_indices =? 1)%nat
  then wallet2.get_subaddress_label w
         {| major := m_subaddr_account; minor := hd 0 m_subaddr_indices |}
  else Ok EmptyString.

(** Body of the loop over [in_payments] (confirmed incoming payments),
    up to the [push_back]. *)
Definition from_in_payment (w : wallet2.t hash network_type)
    (wallet_height : Z) (i : hash * payment_details.t hash)
  : result TransactionInfoImpl :=
  let pd := snd i in
  let? payment_id := display_payment_id (type_to_hex (fst i)) in
  let ti := new_TransactionInfoImpl in
  let? label := wallet2.get_subaddress_label w
                  (payment_details.m_subaddr_index pd) in
  Ok {| m_paymentid := payment_id;
        m_amount := payment_details.m_amount pd;
        m_direction := Direction_In;
        m_hash := type_to_hex (payment_details.m_tx_hash pd);
        m_blockheight := payment_details.m_block_height pd;
        m_subaddrIndex := [minor (payment_details.m_subaddr_index pd)];
        m_subaddrAccount := major (payment_details.m_subaddr_index pd);
        m_label := label;
        m_timestamp := payment_details.m_timestamp pd;
        m_confirmations :=
          if wallet_height >? payment_details.m_block_height pd
          then u64 (wallet_height - payment_details.m_block_height pd)
          else 0;
        m_unlock_time := payment_details.m_unlock_time pd;
        m_reward_type := from_pay_type (payment_details.m_type pd);
        m_is_stake :=
          pay_type.eqb (payment_details.m_type pd) pay_type.stake;
        (* left as constructed *)
        m_fee := m_fee ti;
        m_pending := m_pending ti;
        m_failed := m_failed ti;
        m_transfers := m_transfers ti |}.

(** [ti->m_transfers.push_back({d.amount, d.address(w->nettype(), ...)})]
    for one destination. *)
Definition transfer_of_dest (w : wallet2.t hash network_type)
    (m_payment_id : hash) (d : tx_destination_entry.t hash network_type)
  : result (Z * string) :=
  let? nt := wallet2.nettype w in
  let? a := tx_destination_entry.address d nt m_payment_id in
  Ok (tx_destination_entry.amount d, a).

(** Body of the loop over [out_payments] (confirmed outgoing transfers). *)
Definition from_out_payment (w : wallet2.t hash network_type)
    (wallet_height : Z)
    (i : hash * confirmed_transfer_details.t hash network_type)
  : result TransactionInfoImpl :=
  let hash_ := fst i in
  let pd := snd i in
  (* change may not be known *)
  let change :=
    if confirmed_transfer_details.m_change pd =? UINT64_MAX then 0
    else confirmed_transfer_details.m_change pd in
  let fee := u64 (confirmed_transfer_details.m_amount_in pd
                  - confirmed_transfer_details.m_amount_out pd) in
  let? payment_id :=
    display_payment_id
      (type_to_hex (confirmed_transfer_details.m_payment_id pd)) in
  let ti := new_TransactionInfoImpl in
  let? label :=
    label_of_indices w (confirmed_transfer_details.m_subaddr_account pd)
      (confirmed_transfer_details.m_subaddr_indices pd) in
  (* single output transaction might contain multiple transfers *)
  let? transfers :=
    mapR (transfer_of_dest w (confirmed_transfer_details.m_payment_id pd))
      (confirmed_transfer_details.m_dests pd) in
  Ok {| m_paymentid := payment_id;
        m_amount :=
          u64 (u64 (confirmed_transfer_details.m_amount_in pd - change)
               - fee);
        m_fee := fee;
        m_direction := Direction_Out;
        m_hash := type_to_hex hash_;
        m_blockheight := confirmed_transfer_details.m_block_height pd;
        m_subaddrIndex := confirmed_transfer_details.m_subaddr_indices pd;
        m_subaddrAccount := confirmed_transfer_details.m_subaddr_account pd;
        m_label := label;
        m_timestamp := confirmed_transfer_details.m_timestamp pd;
        m_confirmations :=
          if wallet_height >? confirmed_transfer_details.m_block_height pd
          then u64 (wallet_height
                    - confirmed_transfer_details.m_block_height pd)
          else 0;
        m_is_stake :=
          pay_type.eqb (confirmed_transfer_details.m_pay_type pd)
            pay_type.stake;
        m_transfers := m_transfers ti ++ transfers;
        (* left as constructed *)
        m_pending := m_pending ti;
        m_failed := m_failed ti;
        m_reward_type := m_reward_type ti;
        m_unlock_time := m_unlock_time ti |}.

(** Body of the loop over [upayments_out] (unconfirmed outgoing
    transfers). *)
Definition from_upayment_out (w : wallet2.t hash network_type)
    (i : hash * unconfirmed_transfer_details.t hash)
  : result TransactionInfoImpl :=
  let pd := snd i in
  let hash_ := fst i in
  let amount := unconfirmed_transfer_details.m_amount_in pd in
  let fee := u64 (amount - unconfirmed_transfer_details.m_amount_out pd) in
  let? payment_id :=
    display_payment_id
      (type_to_hex (unconfirmed_transfer_details.m_payment_id pd)) in
  let is_failed :=
    unconfirmed_transfer_details.state_eqb
      (unconfirmed_transfer_details.m_state pd)
      unconfirmed_transfer_details.failed in
  let ti := new_TransactionInfoImpl in
  let? label :=
    label_of_indices w (unconfirmed_transfer_details.m_subaddr_account pd)
      (unconfirmed_transfer_details.m_subaddr_indices pd) in
  Ok {| m_paymentid := payment_id;
        m_amount :=
          u64 (u64 (amount - unconfirmed_transfer_details.m_change pd)
               - fee);
        m_fee := fee;
        m_direction := Direction_Out;
        m_failed := is_failed;
        m_pending := true;
        m_hash := type_to_hex hash_;
        m_subaddrIndex := unconfirmed_transfer_details.m_subaddr_indices pd;
        m_subaddrAccount :=
          unconfirmed_transfer_details.m_subaddr_account pd;
        m_label := label;
        m_timestamp := unconfirmed_transfer_details.m_timestamp pd;
        m_confirmations := 0;
        m_is_stake :=
          pay_type.eqb (unconfirmed_transfer_details.m_pay_type pd)
            pay_type.stake;
        (* left as constructed *)
        m_blockheight := m_blockheight ti;
        m_reward_type := m_reward_type ti;
        m_transfers := m_transfers ti;
        m_unlock_time := m_unlock_time ti |}.

(** Body of the loop over [upayments] (unconfirmed payments of the tx
    pool); the log line at its end has no effect on the history. *)
Definition from_upayment (w : wallet2.t hash network_type)
    (i : hash * pool_payment_details.t hash)
  : result TransactionInfoImpl :=
  let pd := pool_payment_details.m_pd (snd i) in
  let? payment_id := display_payment_id (type_to_hex (fst i)) in
  let ti := new_TransactionInfoImpl in
  let? label := wallet2.get_subaddress_label w
                  (payment_details.m_subaddr_index pd) in
  Ok {| m_paymentid := payment_id;
        m_amount := payment_details.m_amount pd;
        m_direction := Direction_In;
        m_hash := type_to_hex (payment_details.m_tx_hash pd);
        m_blockheight := payment_details.m_block_height pd;
        m_pending := true;
        m_subaddrIndex := [minor (payment_details.m_subaddr_index pd)];
        m_subaddrAccount := major (payment_details.m_subaddr_index pd);
        m_label := label;
        m_timestamp := payment_details.m_timestamp pd;
        m_confirmations := 0;
        m_reward_type := from_pay_type (payment_details.m_type pd);
        m_is_stake :=
          pay_type.eqb (payment_details.m_type pd) pay_type.stake;
        (* left as constructed *)
        m_fee := m_fee ti;
        m_failed := m_failed ti;
        m_transfers := m_transfers ti;
        m_unlock_time := m_unlock_time ti |}.

(** One iteration of a loop: build the record, then [push_back] it. *)
Definition append_info (r : result TransactionInfoImpl) : action unit :=
  ti <- call r ;; push_back ti.

(** [TransactionHistoryImpl::refresh()]. *)
Definition refresh (m_wallet : WalletImpl.t hash network_type)
  : action unit :=
  let min_height := 0 in
  let max_height := UINT64_MAX in
  wallet_height <- call (WalletImpl.blockChainHeight m_wallet) ;;
  (* delete old transactions *)
  clear ;;
  let w := WalletImpl.wallet m_wallet in
  in_payments <- call (wallet2.get_payments w min_height max_height) ;;
  for_each (fun i => append_info (from_in_payment w wallet_height i))
    in_payments ;;
  out_payments <- call (wallet2.get_payments_out w min_height max_height) ;;
  for_each (fun i => append_info (from_out_payment w wallet_height i))
    out_payments ;;
  upayments_out <- call (wallet2.get_unconfirmed_payments_out w) ;;
  for_each (fun i => append_info (from_upayment_out w i)) upayments_out ;;
  upayments <- call (wallet2.get_unconfirmed_payments w) ;;
  for_each (fun i => append_info (from_upayment w i)) upayments.

End Refresh.

(** ** Specification-side definitions

    The definitions of this part follow the words of the specification;
    the theorems compare them with the embedding of the code above. *)

(** What one loop of [refresh] does to the history, read off the list it
    runs over: the records it appends, and how it ends. *)
Fixpoint appended {A} (f : A -> result TransactionInfoImpl) (l : list A)
  : result unit * list TransactionInfoImpl :=
  match l with
  | [] => (Ok tt, [])
  | i :: l' =>
      match f i with
      | Ok ti => let (r, out) := appended f l' in (r, ti :: out)
      | Throw e => (Throw e, [])
      end
  end.

(** A loop of [refresh] runs over all of [l] and appends [out]. *)
Definition loop_completes {A} (f : A -> result TransactionInfoImpl)
    (l : list A) (out : list TransactionInfoImpl) : Prop :=
  Forall2 (fun i ti => f i = Ok ti) l out.

(** A loop of [refresh] appends [out], the records of the entries before
    some entry of [l], and its body throws [e] on that entry. *)
Definition loop_stops {A} (f : A -> result TransactionInfoImpl)
    (l : list A) (e : exn) (out : list TransactionInfoImpl) : Prop :=
  exists done i rest,
    l = done ++ i :: rest /\
    Forall2 (fun i ti => f i = Ok ti) done out /\
    f i = Throw e.

(** "every character at index >= 16 equals the pad character '0'". *)
Definition zero_padded (s : string) : Prop :=
  forall i, (16 <= i < String.length s)%nat -> String.get i s = Some "0"%char.

(** PaymentIdNormalizer: the first 16 characters when the tail is all
    zeros, the full string otherwise. *)
Definition displayed_as (raw shown : string) : Prop :=
  (zero_padded raw -> shown = substring 0 16 raw) /\
  (~ zero_padded raw -> shown = raw).

(** ConfirmationCalculator. *)
Definition confirmations_at (walletHeight blockHeight : Z) : Z :=
  if walletHeight >? blockHeight then walletHeight - blockHeight else 0.

(** Outgoing derivation of the confirmed branch, over integers:
    change = (raw change == UNKNOWN) ? 0 : raw change;
    fee = amountIn - amountOut; amount = amountIn - change - fee. *)
Definition known_change (raw_change : Z) : Z :=
  if raw_change =? UINT64_MAX then 0 else raw_change.

Definition exact_fee (amount_in amount_out : Z) : Z :=
  amount_in - amount_out.

Definition exact_amount (amount_in change fee : Z) : Z :=
  amount_in - change - fee.

(** A value held in an [uint64_t] member, against the integer the
    expression assigned to it denotes: it is that integer reduced modulo
    2^64, hence never negative. *)
Definition stored_unsigned (stored exact : Z) : Prop :=
  stored = u64 exact /\ 0 <= stored <= UINT64_MAX.

(** ** Sample wallets

    Concrete inputs for the examples below.  A hash is given by its hex
    rendering, and the network type carries no information. *)

Module Sample.

#[global] Instance hex_of_string : ToHex string := fun s => s.

Definition padded_id : string := "a1b2c3d4e5f6a7b800000000000000000".
Definition full_id : string := "a1b2c3d4e5f6a7b800000000000000c3".
Definition tx1 : string := "1111111111111111111111111111111111".
Definition tx2 : string := "2222222222222222222222222222222222".
Definition tx3 : string := "3333333333333333333333333333333333".
Definition tx4 : string := "4444444444444444444444444444444444".

Definition in_payment : string * payment_details.t string :=
  (padded_id,
   payment_details.mk string tx1 500 40 0 1700000000
     {| major := 0; minor := 1 |} pay_type.miner).

Definition out_payment
  : string * confirmed_transfer_details.t string unit :=
  (tx2,
   confirmed_transfer_details.mk string unit 110 100 UINT64_MAX 150
     [tx_destination_entry.mk string unit 100 (fun _ _ => Ok "addr"%string)]
     full_id 1700000100 0 [2] (pay_type.other 0)).

Definition upayment_out : string * unconfirmed_transfer_details.t string :=
  (tx3,
   unconfirmed_transfer_details.mk string 110 100 7
     unconfirmed_transfer_details.failed padded_id 1700000200 0 [2]
     (pay_type.other 0)).

(** A pending transfer whose change is the UNKNOWN sentinel. *)
Definition upayment_out_unknown
  : string * unconfirmed_transfer_details.t string :=
  (tx3,
   unconfirmed_transfer_details.mk string 110 100 UINT64_MAX
     unconfirmed_transfer_details.pending padded_id 1700000200 0 [2]
     (pay_type.other 0)).

(** An outgoing transfer that pays out more than it takes in. *)
Definition out_payment_underflow
  : string * confirmed_transfer_details.t string unit :=
  (tx2,
   confirmed_transfer_details.mk string unit 100 110 0 150 []
     full_id 1700000100 0 [2] (pay_type.other 0)).

Definition ti_underflow : TransactionInfoImpl :=
  {| m_direction := Direction_Out; m_pending := false; m_failed := false;
     m_reward_type := reward_type.unspecified; m_is_stake := false;
     m_amount := 110; m_fee := 18446744073709551606; m_blockheight := 150;
     m_subaddrIndex := [2]; m_subaddrAccount := 0;
     m_label := "savings"; m_hash := tx2; m_timestamp := 1700000100;
     m_paymentid := full_id; m_transfers := [];
     m_confirmations := 0; m_unlock_time := 0 |}.

Definition upayment : string * pool_payment_details.t string :=
  (full_id,
   pool_payment_details.mk string
     (payment_details.mk string tx4 25 0 0 1700000300
        {| major := 0; minor := 3 |} pay_type.stake)).

Definition w : wallet2.t string unit :=
  wallet2.mk string unit
    (fun _ _ => Ok [in_payment])
    (fun _ _ => Ok [out_payment])
    (Ok [upayment_out])
    (Ok [upayment])
    (fun _ => Ok "savings"%string)
    (Ok tt).

Definition m_wallet : WalletImpl.t string unit :=
  WalletImpl.mk string unit (Ok 100) w.

(** The records [refresh] makes of the four sample entries. *)
Definition ti1 : TransactionInfoImpl :=
  {| m_direction := Direction_In; m_pending := false; m_failed := false;
     m_reward_type := reward_type.miner; m_is_stake := false;
     m_amount := 500; m_fee := 0; m_blockheight := 40;
     m_subaddrIndex := [1]; m_subaddrAccount := 0;
     m_label := "savings"; m_hash := tx1; m_timestamp := 1700000000;
     m_paymentid := "a1b2c3d4e5f6a7b8"; m_transfers := [];
     m_confirmations := 60; m_unlock_time := 0 |}.

Definition ti2 : TransactionInfoImpl :=
  {| m_direction := Direction_Out; m_pending := false; m_failed := false;
     m_reward_type := reward_type.unspecified; m_is_stake := false;
     m_amount := 100; m_fee := 10; m_blockheight := 150;
     m_subaddrIndex := [2]; m_subaddrAccount := 0;
     m_label := "savings"; m_hash := tx2; m_timestamp := 1700000100;
     m_paymentid := full_id; m_transfers := [(100, "addr"%string)];
     m_confirmations := 0; m_unlock_time := 0 |}.

Definition ti3 : TransactionInfoImpl :=
  {| m_direction := Direction_Out; m_pending := true; m_failed := true;
     m_reward_type := reward_type.unspecified; m_is_stake := false;
     m_amount := 93; m_fee := 10; m_blockheight := 0;
     m_subaddrIndex := [2]; m_subaddrAccount := 0;
     m_label := "savings"; m_hash := tx3; m_timestamp := 1700000200;
     m_paymentid := "a1b2c3d4e5f6a7b8"; m_transfers := [];
     m_confirmations := 0; m_unlock_time := 0 |}.

Definition ti4 : TransactionInfoImpl :=
  {| m_direction := Direction_In; m_pending := true; m_failed := false;
     m_reward_type := reward_type.unspecified; m_is_stake := true;
     m_amount := 25; m_fee := 0; m_blockheight := 0;
     m_subaddrIndex := [3]; m_subaddrAccount := 0;
     m_label := "savings"; m_hash := tx4; m_timestamp := 1700000300;
     m_paymentid := full_id; m_transfers := [];
     m_confirmations := 0; m_unlock_time := 0 |}.

(** A wallet whose first query throws. *)
Definition w_unreachable : wallet2.t string unit :=
  wallet2.mk string unit
    (fun _ _ => Throw (wallet_error "unreachable"))
    (fun _ _ => Ok [out_payment])
    (Ok [upayment_out])
    (Ok [upayment])
    (fun _ => Ok "savings"%string)
    (Ok tt).

Definition m_wallet_unreachable : WalletImpl.t string unit :=
  WalletImpl.mk string unit (Ok 100) w_unreachable.

(** A wallet whose second query throws, after the first has answered. *)
Definition w_halfway : wallet2.t string unit :=
  wallet2.mk string unit
    (fun _ _ => Ok [in_payment])
    (fun _ _ => Throw (wallet_error "corrupt"))
    (Ok [upayment_out])
    (Ok [upayment])
    (fun _ => Ok "savings"%string)
    (Ok tt).

Definition m_wallet_halfway : WalletImpl.t string unit :=
  WalletImpl.mk string unit (Ok 100) w_halfway.

(** A wallet whose third query throws. *)
Definition w_pending_gone : wallet2.t string unit :=
  wallet2.mk string unit
    (fun _ _ => Ok [in_payment])
    (fun _ _ => Ok [out_payment])
    (Throw (wallet_error "pending gone"))
    (Ok [upayment])
    (fun _ => Ok "savings"%string)
    (Ok tt).

Definition m_wallet_pending_gone : WalletImpl.t string unit :=
  WalletImpl.mk string unit (Ok 100) w_pending_gone.

(** A wallet whose fourth query throws. *)
Definition w_pool_gone : wallet2.t string unit :=
  wallet2.mk string unit
    (fun _ _ => Ok [in_payment])
    (fun _ _ => Ok [out_payment])
    (Ok [upayment_out])
    (Throw (wallet_error "pool gone"))
    (fun _ => Ok "savings"%string)
    (Ok tt).

Definition m_wallet_pool_gone : WalletImpl.t string unit :=
  WalletImpl.mk string unit (Ok 100) w_pool_gone.

(** A payment whose id renders to fewer than 16 characters. *)
Definition in_payment_short : string * payment_details.t string :=
  ("abc"%string,
   payment_details.mk string tx1 500 40 0 1700000000
     {| major := 0; minor := 1 |} pay_type.miner).

(** A payment to a subaddress whose label the wallet cannot give. *)
Definition in_payment_unlabelled : string * payment_details.t string :=
  (full_id,
   payment_details.mk string tx4 5 41 0 1700000001
     {| major := 0; minor := 9 |} (pay_type.other 0)).

Definition w_unlabelled : wallet2.t string unit :=
  wallet2.mk string unit
    (fun _ _ => Ok [in_payment; in_payment_unlabelled; in_payment])
    (fun _ _ => Ok [out_payment])
    (Ok [upayment_out])
    (Ok [upayment])
    (fun idx => if minor idx =? 9 then Throw (wallet_error "no label")
                else Ok "savings"%string)
    (Ok tt).

Definition m_wallet_unlabelled : WalletImpl.t string unit :=
  WalletImpl.mk string unit (Ok 100) w_unlabelled.

(** A wallet with 2^31 confirmed incoming payments and nothing else. *)
Definition many : nat := Z.to_nat (2 ^ 31).

Definition w_many : wallet2.t string unit :=
  wallet2.mk string unit
    (fun _ _ => Ok (repeat in_payment many))
    (fun _ _ => Ok [])
    (Ok [])
    (Ok [])
    (fun _ => Ok "savings"%string)
    (Ok tt).

Definition m_wallet_many : WalletImpl.t string unit :=
  WalletImpl.mk string unit (Ok 100) w_many.

End Sample.

(** ** Proof helpers *)

(** Splits a hypothesis [H : body ... = Ok ti] (or [= Throw e]) along the
    calls of the body that may throw. *)
Ltac split_calls H :=
  unfold from_in_payment, from_out_payment, from_upayment_out, from_upayment,
    bindR in H;
  repeat match type of H with
         | context [match ?r with Ok _ => _ | Throw _ => _ end] =>
             let E := fresh "Hcall" in
             destruct r eqn:E; try discriminate H
         end.

Ltac produced H := split_calls H; injection H as <-; cbn [
  m_direction m_pending m_failed m_reward_type m_is_stake m_amount m_fee
  m_blockheight m_subaddrIndex m_subaddrAccount m_label m_hash m_timestamp
  m_paymentid m_transfers m_confirmations m_unlock_time].

(** * Properties *)

(** ** Strings *)

Section Strings.
Import StdString.

Lemma length_drop n s : String.length (drop n s) = (String.length s - n)%nat.
Proof.
revert s; induction n as [|n IH]; intros [|a s]; simpl; auto with arith.
Qed.

Lemma get_drop n s i : String.get i (drop n s) = String.get (n + i) s.
Proof.
revert s; induction n as [|n IH]; intros [|a s]; simpl; auto.
Qed.

Lemma take_substring n s : take n s = substring 0 n s.
Proof.
revert s; induction n as [|n IH]; intros [|a s]; simpl; auto.
now rewrite IH.
Qed.

Lemma take_all n s : (String.length s <= n)%nat -> take n s = s.
Proof.
revert s; induction n as [|n IH]; intros [|a s]; simpl; intros H; auto; try lia.
f_equal. apply IH. lia.
Qed.

Lemma find_first_not_of_None s c :
find_first_not_of s c = None <->
(forall i, (i < String.length s)%nat -> String.get i s = Some c).
Proof.
induction s as [|a s IH]; simpl.
- split; auto. intros _ i Hi. lia.
- destruct (Ascii.eqb_spec a c) as [->|Hne].
  + destruct (find_first_not_of s c) eqn:E; simpl.
    * split; [discriminate|]. intros H.
      assert (Some n = None) as F; [|discriminate F].
      apply IH. intros i Hi. apply (H (S i)). lia.
    * split; auto. intros _ [|i] Hi; auto. apply IH; auto. lia.
  + split; [discriminate|]. intros H. specialize (H O ltac:(lia)).
    simpl in H. congruence.
Qed.

Lemma find_first_not_of_Some s c n :
find_first_not_of s c = Some n ->
(n < String.length s)%nat /\ exists a, String.get n s = Some a /\ a <> c.
Proof.
revert n; induction s as [|a s IH]; simpl; intros n; [discriminate|].
destruct (Ascii.eqb_spec a c) as [->|Hne].
- destruct (find_first_not_of s c) eqn:E; simpl; [|discriminate].
  intros [= <-]. destruct (IH _ eq_refl) as (Hl & b & Hb & Hbc).
  split; [lia|]. eauto.
- intros [= <-]. split; [lia|]. eauto.
Qed.
End Strings.

(** ** Loops over the history *)

Section Loops.
Context {A : Type} (f : A -> result TransactionInfoImpl).

Lemma for_each_appended l h :
  for_each (fun i => append_info (f i)) l h =
  (fst (appended f l), h ++ snd (appended f l)).
Proof.
  revert h; induction l as [|i l IH]; intros h; simpl.
  - now rewrite app_nil_r.
  - unfold bind, append_info, call, push_back at 1. unfold bind.
    destruct (f i) as [ti|e]; simpl.
    + rewrite IH. destruct (appended f l) as [r out]; simpl.
      now rewrite <- app_assoc.
    + now rewrite app_nil_r.
Qed.

Lemma appended_Ok l out :
  appended f l = (Ok tt, out) <-> Forall2 (fun i ti => f i = Ok ti) l out.
Proof.
  revert out; induction l as [|i l IH]; intros out; simpl.
  - split.
    + intros [= <-]. constructor.
    + intros H; inversion H; reflexivity.
  - destruct (f i) as [ti|e] eqn:E.
    + destruct (appended f l) as [r out'] eqn:E'. split.
      * intros [= -> <-]. constructor; auto. now apply IH.
      * intros H; inversion H as [|? ti' ? out'' Hf Hr]; subst.
        apply IH in Hr. injection Hr as <-. congruence.
    + split; [discriminate|]. intros H; inversion H; congruence.
Qed.
End Loops.

Lemma appended_throw {A} (f : A -> result TransactionInfoImpl)
    done i rest out e :
  Forall2 (fun i ti => f i = Ok ti) done out ->
  f i = Throw e ->
  appended f (done ++ i :: rest) = (Throw e, out).
Proof.
  induction 1 as [|a ti done out Ha _ IH]; simpl; intros Hi.
  - now rewrite Hi.
  - rewrite Ha, (IH Hi). reflexivity.
Qed.

Lemma appended_Throw_inv {A} (f : A -> result TransactionInfoImpl) l e out :
  appended f l = (Throw e, out) -> loop_stops f l e out.
Proof.
  revert out; induction l as [|i l IH]; simpl; intros out H; [discriminate|].
  destruct (f i) as [ti|e0] eqn:E.
  - destruct (appended f l) as [r out'] eqn:E'.
    injection H as -> <-.
    destruct (IH _ eq_refl) as (done & j & rest & -> & F & Hj).
    exists (i :: done), j, rest. repeat split; auto.
  - injection H as <- <-. exists [], i, l. repeat split; auto.
Qed.

Lemma appended_stops {A} (f : A -> result TransactionInfoImpl) l e out :
  loop_stops f l e out -> appended f l = (Throw e, out).
Proof.
  intros (done & i & rest & -> & F & Hi). now apply appended_throw.
Qed.

(** ** The displayed payment id *)

Section PaymentId.
Import StdString.

Lemma zero_padded_drop s :
  (16 <= String.length s)%nat ->
  (find_first_not_of (drop 16 s) "0"%char = None <-> zero_padded s).
Proof.
  intros Hlen. rewrite find_first_not_of_None. unfold zero_padded. split.
  - intros H i [Hi1 Hi2].
    specialize (H (i - 16)%nat). rewrite length_drop, get_drop in H.
    replace (16 + (i - 16))%nat with i in H by lia. apply H. lia.
  - intros H i Hi. rewrite length_drop in Hi. rewrite get_drop.
    apply H. lia.
Qed.

Lemma display_payment_id_short s :
  (String.length s < 16)%nat -> display_payment_id s = Throw out_of_range.
Proof.
  intros H. unfold display_payment_id, substr_from.
  destruct (Nat.ltb_spec (String.length s) 16); [reflexivity|lia].
Qed.

Lemma display_payment_id_padded s :
  (16 <= String.length s)%nat -> zero_padded s ->
  display_payment_id s = Ok (substring 0 16 s).
Proof.
  intros Hlen Hz. unfold display_payment_id, substr_from, substr.
  destruct (Nat.ltb_spec (String.length s) 16) as [|_]; [lia|]. unfold bindR.
  apply zero_padded_drop in Hz; auto. rewrite Hz.
  destruct (Nat.ltb_spec (String.length s) 0) as [|_]; [lia|].
  now rewrite take_substring.
Qed.

Lemma display_payment_id_full s :
  (16 <= String.length s)%nat -> ~ zero_padded s ->
  display_payment_id s = Ok s.
Proof.
  intros Hlen Hz. unfold display_payment_id, substr_from.
  destruct (Nat.ltb_spec (String.length s) 16) as [|_]; [lia|]. unfold bindR.
  destruct (find_first_not_of (drop 16 s) "0"%char) eqn:E; [reflexivity|].
  apply zero_padded_drop in E; tauto.
Qed.

Lemma zero_padded_dec s :
  (16 <= String.length s)%nat -> {zero_padded s} + {~ zero_padded s}.
Proof.
  intros Hlen.
  destruct (find_first_not_of (drop 16 s) "0"%char) eqn:E.
  - right. intros Hz. apply zero_padded_drop in Hz; congruence.
  - left. now apply zero_padded_drop.
Qed.

Lemma display_payment_id_Ok s p :
  display_payment_id s = Ok p ->
  (16 <= String.length s)%nat /\ displayed_as s p.
Proof.
  intros H.
  destruct (Nat.ltb_spec (String.length s) 16) as [Hs|Hl].
  - rewrite display_payment_id_short in H by assumption. discriminate.
  - split; [assumption|]. split; intros Hz.
    + rewrite display_payment_id_padded in H by assumption. congruence.
    + rewrite display_payment_id_full in H by assumption. congruence.
Qed.

Lemma display_payment_id_total s :
  (16 <= String.length s)%nat -> exists p, display_payment_id s = Ok p.
Proof.
  intros Hlen. destruct (zero_padded_dec s Hlen) as [Hz|Hz].
  - eexists. now apply display_payment_id_padded.
  - eexists. now apply display_payment_id_full.
Qed.
End PaymentId.

(** ** Shape of [refresh] *)

Section RefreshFacts.
Context {hash network_type : Type} {hex : ToHex hash}.
Implicit Types (w : WalletImpl.t hash network_type) (h : history).

Lemma loop_then {A B} (f : A -> result TransactionInfoImpl) l
    (k : unit -> action B) h :
  bind (for_each (fun i => append_info (f i)) l) k h =
  match appended f l with
  | (Ok u, out) => k u (h ++ out)
  | (Throw e, out) => (Throw e, h ++ out)
  end.
Proof.
  unfold bind. rewrite for_each_appended.
  destruct (appended f l) as [[[]|e] out]; reflexivity.
Qed.

Lemma call_then {A B} (r : result A) (k : A -> action B) h :
  bind (call r) k h =
  match r with Ok a => k a h | Throw e => (Throw e, h) end.
Proof. unfold bind, call. destruct r; reflexivity. Qed.

Lemma clear_then {B} (k : unit -> action B) h :
  bind clear k h = k tt [].
Proof. reflexivity. Qed.

Lemma refresh_height_throw w h e :
  WalletImpl.blockChainHeight w = Throw e -> refresh w h = (Throw e, h).
Proof. intros H. unfold refresh. rewrite call_then, H. reflexivity. Qed.

Lemma refresh_forgets w h wh :
  WalletImpl.blockChainHeight w = Ok wh -> refresh w h = refresh w [].
Proof.
  intros H. unfold refresh. rewrite !call_then, H, !clear_then. reflexivity.
Qed.

Lemma refresh_payments_throw w h wh e :
  WalletImpl.blockChainHeight w = Ok wh ->
  wallet2.get_payments (WalletImpl.wallet w) 0 UINT64_MAX = Throw e ->
  refresh w h = (Throw e, []).
Proof.
  intros H1 H2. unfold refresh.
  rewrite call_then, H1, clear_then, call_then, H2. reflexivity.
Qed.

Lemma refresh_payments_out_throw w h wh ps l1 e :
  WalletImpl.blockChainHeight w = Ok wh ->
  wallet2.get_payments (WalletImpl.wallet w) 0 UINT64_MAX = Ok ps ->
  Forall2 (fun i ti => from_in_payment (WalletImpl.wallet w) wh i = Ok ti) ps l1 ->
  wallet2.get_payments_out (WalletImpl.wallet w) 0 UINT64_MAX = Throw e ->
  refresh w h = (Throw e, l1).
Proof.
  intros H1 H2 H3 H4. unfold refresh.
  rewrite call_then, H1, clear_then, call_then, H2, loop_then.
  apply appended_Ok in H3. rewrite H3.
  rewrite call_then, H4. reflexivity.
Qed.

Lemma refresh_complete w h wh ps os us pool l1 l2 l3 l4 :
  WalletImpl.blockChainHeight w = Ok wh ->
  wallet2.get_payments (WalletImpl.wallet w) 0 UINT64_MAX = Ok ps ->
  wallet2.get_payments_out (WalletImpl.wallet w) 0 UINT64_MAX = Ok os ->
  wallet2.get_unconfirmed_payments_out (WalletImpl.wallet w) = Ok us ->
  wallet2.get_unconfirmed_payments (WalletImpl.wallet w) = Ok pool ->
  Forall2 (fun i ti => from_in_payment (WalletImpl.wallet w) wh i = Ok ti) ps l1 ->
  Forall2 (fun i ti => from_out_payment (WalletImpl.wallet w) wh i = Ok ti) os l2 ->
  Forall2 (fun i ti => from_upayment_out (WalletImpl.wallet w) i = Ok ti) us l3 ->
  Forall2 (fun i ti => from_upayment (WalletImpl.wallet w) i = Ok ti) pool l4 ->
  refresh w h = (Ok tt, l1 ++ l2 ++ l3 ++ l4).
Proof.
  intros Hh Hp Ho Hu Hq F1 F2 F3 F4. unfold refresh.
  apply appended_Ok in F1, F2, F3, F4.
  rewrite call_then, Hh, clear_then, call_then, Hp, loop_then, F1.
  rewrite call_then, Ho, loop_then, F2.
  rewrite call_then, Hu, loop_then, F3.
  rewrite call_then, Hq, for_each_appended, F4. simpl.
  now rewrite <- !app_assoc.
Qed.

Lemma refresh_Ok_inv w h h' :
  refresh w h = (Ok tt, h') ->
  exists wh ps os us pool l1 l2 l3 l4,
    WalletImpl.blockChainHeight w = Ok wh /\
    wallet2.get_payments (WalletImpl.wallet w) 0 UINT64_MAX = Ok ps /\
    wallet2.get_payments_out (WalletImpl.wallet w) 0 UINT64_MAX = Ok os /\
    wallet2.get_unconfirmed_payments_out (WalletImpl.wallet w) = Ok us /\
    wallet2.get_unconfirmed_payments (WalletImpl.wallet w) = Ok pool /\
    Forall2 (fun i ti => from_in_payment (WalletImpl.wallet w) wh i = Ok ti) ps l1 /\
    Forall2 (fun i ti => from_out_payment (WalletImpl.wallet w) wh i = Ok ti) os l2 /\
    Forall2 (fun i ti => from_upayment_out (WalletImpl.wallet w) i = Ok ti) us l3 /\
    Forall2 (fun i ti => from_upayment (WalletImpl.wallet w) i = Ok ti) pool l4 /\
    h' = l1 ++ l2 ++ l3 ++ l4.
Proof.
  unfold refresh. rewrite call_then.
  destruct (WalletImpl.blockChainHeight w) as [wh|e]; [|discriminate].
  rewrite clear_then, call_then.
  destruct (wallet2.get_payments _ _ _) as [ps|e]; [|discriminate].
  rewrite loop_then.
  destruct (appended _ ps) as [[[]|e] l1] eqn:E1; [|discriminate].
  rewrite call_then.
  destruct (wallet2.get_payments_out _ _ _) as [os|e]; [|discriminate].
  rewrite loop_then.
  destruct (appended _ os) as [[[]|e] l2] eqn:E2; [|discriminate].
  rewrite call_then.
  destruct (wallet2.get_unconfirmed_payments_out _) as [us|e]; [|discriminate].
  rewrite loop_then.
  destruct (appended _ us) as [[[]|e] l3] eqn:E3; [|discriminate].
  rewrite call_then.
  destruct (wallet2.get_unconfirmed_payments _) as [pool|e]; [|discriminate].
  rewrite for_each_appended.
  destruct (appended _ pool) as [[[]|e] l4] eqn:E4; [|discriminate].
  simpl. intros [= <-].
  apply appended_Ok in E1, E2, E3, E4.
  exists wh, ps, os, us, pool, l1, l2, l3, l4.
  rewrite <- !app_assoc. auto 12.
Qed.
End RefreshFacts.

(** ** Arithmetic of the machine integers *)

Lemma u64_range z : 0 <= u64 z <= UINT64_MAX.
Proof.
  unfold u64, UINT64_MAX. pose proof (Z.mod_pos_bound z (2 ^ 64)). lia.
Qed.

Lemma u64_small z : is_uint64 z -> u64 z = z.
Proof. unfold is_uint64, UINT64_MAX, u64. intros H. apply Z.mod_small. lia. Qed.

Lemma u64_borrow z : - 2 ^ 64 <= z < 0 -> u64 z = z + 2 ^ 64.
Proof.
  intros H. unfold u64.
  replace z with (z + 2 ^ 64 + (-1) * 2 ^ 64) at 1 by ring.
  rewrite Z.mod_add by lia. apply Z.mod_small. lia.
Qed.

Lemma u64_sub_l a b : u64 (u64 a - b) = u64 (a - b).
Proof. unfold u64. apply Zminus_mod_idemp_l. Qed.

Lemma u64_succ_neq z : u64 (z + 1) <> u64 z.
Proof.
  unfold u64. intros E.
  assert (H : ((z + 1) - z) mod 2 ^ 64 = 0).
  { rewrite Zminus_mod, E, Z.sub_diag. reflexivity. }
  replace (z + 1 - z) with 1 in H by ring. discriminate H.
Qed.

Lemma to_int_small z : 0 <= z <= INT_MAX -> to_int z = z.
Proof.
  unfold to_int, INT_MAX. intros H. rewrite Z.mod_small; lia.
Qed.

Lemma to_int_range z : is_int (to_int z).
Proof.
  unfold is_int, to_int, INT_MIN, INT_MAX.
  pose proof (Z.mod_pos_bound (z + 2 ^ 31) (2 ^ 32)). lia.
Qed.

Lemma to_int_le z : 0 <= z -> to_int z <= z.
Proof.
  unfold to_int. intros H.
  pose proof (Z.mod_le (z + 2 ^ 31) (2 ^ 32)). lia.
Qed.

Lemma to_unsigned_small z : 0 <= z <= INT_MAX -> to_unsigned z = z.
Proof.
  unfold to_unsigned, INT_MAX. intros H. apply Z.mod_small. lia.
Qed.

(** ** The readers *)

Section Readers.
Implicit Types (h : history) (ti : TransactionInfoImpl).

Lemma count_exact h :
  Z.of_nat (List.length h) <= INT_MAX -> count h = Z.of_nat (List.length h).
Proof. intros H. unfold count. apply to_int_small. lia. Qed.

Lemma count_le_size h : count h <= Z.of_nat (List.length h).
Proof. unfold count. apply to_int_le. lia. Qed.

Lemma transaction_nonneg h index :
  0 <= index <= INT_MAX ->
  transaction h index = nth_error h (Z.to_nat index).
Proof.
  intros Hi. unfold transaction.
  destruct (Z.ltb_spec index 0) as [|_]; [lia|].
  rewrite to_unsigned_small by assumption.
  destruct (Z.ltb_spec index (Z.of_nat (List.length h))) as [|Hge];
    [reflexivity|].
  symmetry. apply nth_error_None. lia.
Qed.

Lemma transaction_negative h index : index < 0 -> transaction h index = None.
Proof.
  intros Hi. unfold transaction.
  destruct (Z.ltb_spec index 0); [reflexivity|lia].
Qed.

Lemma transaction_None_iff h index :
  is_int index ->
  (transaction h index = None <->
   index < 0 \/ index >= Z.of_nat (List.length h)).
Proof.
  intros [Hlo Hhi]. destruct (Z.ltb_spec index 0) as [Hneg|Hpos].
  - rewrite transaction_negative by assumption. tauto.
  - rewrite transaction_nonneg by lia. rewrite nth_error_None. lia.
Qed.

Lemma find_first_split {A} (p : A -> bool) (l : list A) x :
  find p l = Some x ->
  exists before after,
    l = before ++ x :: after /\ p x = true /\
    forall y, In y before -> p y = false.
Proof.
  induction l as [|a l IH]; simpl; [discriminate|].
  destruct (p a) eqn:E.
  - intros [= ->]. exists [], l. simpl. tauto.
  - intros H. destruct (IH H) as (before & after & -> & Hx & Hb).
    exists (a :: before), after. simpl. repeat split; auto.
    intros y [<-|Hy]; auto.
Qed.

(** C6, as amended.  For every [index] of type [int]: [transaction]
    never throws (it is a function into [option]); it returns [nullptr]
    exactly when the index is negative or not below the number of
    records held; otherwise it returns the record at that position of
    [getAll()]; the number of records held is what [count()] returns
    whenever it is at most [INT_MAX], so that under this bound
    [transaction] returns [nullptr] exactly when [index < 0] or
    [index >= count()]; and every index in [[0, count())] yields the
    record at that position of [getAll()]. *)
Theorem transaction_by_index h index :
  is_int index ->
  (transaction h index = None <->
     index < 0 \/ index >= Z.of_nat (List.length h)) /\
  (0 <= index < Z.of_nat (List.length h) ->
     exists ti, transaction h index = Some ti /\
                nth_error (getAll h) (Z.to_nat index) = Some ti) /\
  (Z.of_nat (List.length h) <= INT_MAX ->
     count h = Z.of_nat (List.length h) /\
     (transaction h index = None <-> index < 0 \/ index >= count h)) /\
  (0 <= index < count h ->
     exists ti, transaction h index = Some ti /\
                nth_error (getAll h) (Z.to_nat index) = Some ti).
Proof.
  intros Hint.
  assert (Hin : 0 <= index < Z.of_nat (List.length h) ->
     exists ti, transaction h index = Some ti /\
                nth_error (getAll h) (Z.to_nat index) = Some ti).
  { intros Hi. destruct Hint as [_ Hhi].
    rewrite transaction_nonneg by lia. unfold getAll.
    destruct (nth_error h (Z.to_nat index)) as [ti|] eqn:E; [eauto|].
    apply nth_error_None in E. lia. }
  repeat split.
  - now apply transaction_None_iff.
  - now apply transaction_None_iff.
  - exact Hin.
  - now apply count_exact.
  - rewrite count_exact by assumption. now apply transaction_None_iff.
  - rewrite count_exact by assumption. now apply transaction_None_iff.
  - intros Hi. apply Hin. pose proof (count_le_size h). lia.
Qed.

(** C7.  [transaction(id)] returns the first record of the history, in
    the order of [getAll()], whose hash equals [id] whenever some record
    has that hash, and [nullptr] when none has; it never throws (it is a
    function into [option]). *)
Theorem transaction_by_hash h id :
  ((exists ti, In ti h /\ m_hash ti = id) ->
     exists before ti after,
       transaction_by_id h id = Some ti /\
       getAll h = before ++ ti :: after /\
       m_hash ti = id /\
       forall x, In x before -> m_hash x <> id) /\
  ((forall ti, In ti h -> m_hash ti <> id) ->
     transaction_by_id h id = None) /\
  (forall ti, transaction_by_id h id = Some ti ->
     In ti h /\ m_hash ti = id).
Proof.
  unfold transaction_by_id, getAll. repeat split.
  - intros (ti & Hin & Hid).
    destruct (find (fun ti => String.eqb (m_hash ti) id) h) as [t0|] eqn:E.
    + destruct (find_first_split _ _ _ E) as (before & after & -> & Hx & Hb).
      exists before, t0, after. repeat split; auto.
      * now apply String.eqb_eq.
      * intros x Hx'. apply String.eqb_neq. auto.
    + exfalso. pose proof (find_none _ _ E _ Hin) as F. simpl in F.
      apply String.eqb_neq in F. auto.
  - intros Hnone.
    destruct (find (fun ti => String.eqb (m_hash ti) id) h) as [t0|] eqn:E;
      [|reflexivity].
    apply find_some in E. destruct E as [Hin Heq].
    apply String.eqb_eq in Heq. exfalso. eapply Hnone; eauto.
  - apply find_some in H. tauto.
  - apply find_some in H. destruct H as [_ H]. now apply String.eqb_eq.
Qed.

End Readers.

(** The history that holds 2^31 copies of one record. *)
Lemma many_records : Z.of_nat Sample.many = 2 ^ 31.
Proof. unfold Sample.many. apply Z2Nat.id. lia. Qed.

Lemma count_many ti : count (repeat ti Sample.many) = - 2 ^ 31.
Proof.
  unfold count. rewrite repeat_length, many_records. reflexivity.
Qed.

(** C6, as stated, fails once the history holds more than [INT_MAX]
    records: with 2^31 records, [INT_MAX >= count()] (as for every [int]),
    yet [transaction(INT_MAX)] is a record. *)
Lemma transaction_by_index_counterexample :
  let h := repeat Sample.ti1 Sample.many in
  is_int INT_MAX /\
  transaction h INT_MAX = Some Sample.ti1 /\
  INT_MAX >= count h /\
  ~ (transaction h INT_MAX = None <-> INT_MAX < 0 \/ INT_MAX >= count h).
Proof.
  intros h. subst h.
  assert (Hc := count_many Sample.ti1).
  assert (Ht : transaction (repeat Sample.ti1 Sample.many) INT_MAX
               = Some Sample.ti1).
  { rewrite transaction_nonneg by (unfold INT_MAX; lia).
    apply nth_error_repeat. apply Nat2Z.inj_lt.
    rewrite many_records, Z2Nat.id by (unfold INT_MAX; lia).
    unfold INT_MAX. lia. }
  split; [|split; [|split]].
  - unfold is_int, INT_MIN, INT_MAX. lia.
  - exact Ht.
  - rewrite Hc. unfold INT_MAX. lia.
  - intros [_ Hback]. rewrite Ht in Hback.
    assert (F : Some Sample.ti1 = None); [|discriminate F].
    apply Hback. right. rewrite Hc. unfold INT_MAX. lia.
Qed.

(** The bound of [transaction_by_index] holds of the sample history. *)
Lemma transaction_by_index_witness :
  is_int 1 /\
  (Z.of_nat (List.length [Sample.ti1; Sample.ti2]) <= INT_MAX ->
     count [Sample.ti1; Sample.ti2] = 2 /\
     (transaction [Sample.ti1; Sample.ti2] 1 = None <->
        1 < 0 \/ 1 >= count [Sample.ti1; Sample.ti2])) /\
  (exists ti, transaction [Sample.ti1; Sample.ti2] 1 = Some ti /\
              nth_error (getAll [Sample.ti1; Sample.ti2]) 1 = Some ti).
Proof.
  assert (Hint : is_int 1) by (unfold is_int, INT_MIN, INT_MAX; lia).
  destruct (transaction_by_index [Sample.ti1; Sample.ti2] 1 Hint)
    as (_ & Hin & Hcount & _).
  split; [exact Hint|]. split; [exact Hcount|].
  apply Hin. simpl. lia.
Defined.

(** [transaction_by_hash] on the sample history: the second record is
    found by its hash. *)
Lemma transaction_by_hash_witness :
  exists before ti after,
    transaction_by_id [Sample.ti1; Sample.ti2; Sample.ti3] Sample.tx2 = Some ti /\
    getAll [Sample.ti1; Sample.ti2; Sample.ti3] = before ++ ti :: after /\
    m_hash ti = Sample.tx2 /\
    forall x, In x before -> m_hash x <> Sample.tx2.
Proof.
  apply (proj1 (transaction_by_hash [Sample.ti1; Sample.ti2; Sample.ti3]
                  Sample.tx2)).
  exists Sample.ti2. split; [simpl; auto|reflexivity].
Defined.

(** ** The four loop bodies *)

Section Bodies.
Context {hash network_type : Type} {hex : ToHex hash}.
Implicit Types (w : wallet2.t hash network_type) (ti : TransactionInfoImpl).

Lemma u64_unknown_change a f :
  u64 (a - UINT64_MAX - f) <> u64 (a - 0 - f).
Proof.
  replace (a - UINT64_MAX - f) with (a - 0 - f + 1 + (-1) * 2 ^ 64)
    by (unfold UINT64_MAX; ring).
  unfold u64 at 1. rewrite Z.mod_add by lia. apply u64_succ_neq.
Qed.

(** The body of the pending outgoing loop, as the code computes it:
    fee = amountIn - amountOut and amount = amountIn - change - fee in
    [uint64_t] arithmetic, where change is the raw change of the
    transfer, taken as it is; confirmations 0, pending true, and failed
    true exactly when the state of the transfer is [failed].  The
    amount is the one the derivation of the confirmed loop gives
    (which reads an UNKNOWN raw change as 0) exactly when the raw change
    is not the UNKNOWN sentinel. *)
Theorem pending_outgoing_derivation w i ti :
  from_upayment_out w i = Ok ti ->
  let amount_in := unconfirmed_transfer_details.m_amount_in (snd i) in
  let amount_out := unconfirmed_transfer_details.m_amount_out (snd i) in
  let raw_change := unconfirmed_transfer_details.m_change (snd i) in
  m_fee ti = u64 (exact_fee amount_in amount_out) /\
  m_amount ti = u64 (exact_amount amount_in raw_change (m_fee ti)) /\
  m_confirmations ti = 0 /\
  m_pending ti = true /\
  (m_failed ti = true <->
     unconfirmed_transfer_details.m_state (snd i)
     = unconfirmed_transfer_details.failed) /\
  (m_amount ti
     = u64 (exact_amount amount_in (known_change raw_change) (m_fee ti))
   <-> raw_change <> UINT64_MAX).
Proof.
  intros H amount_in amount_out raw_change. produced H.
  fold amount_in amount_out raw_change. unfold exact_fee, exact_amount.
  rewrite u64_sub_l.
  split; [reflexivity|]. split; [reflexivity|].
  split; [reflexivity|]. split; [reflexivity|]. split.
  - destruct (unconfirmed_transfer_details.m_state (snd i)); simpl;
      split; congruence.
  - unfold known_change. destruct (Z.eqb_spec raw_change UINT64_MAX) as [E|E].
    + rewrite E. split; [|tauto]. intros F. exfalso.
      exact (u64_unknown_change _ _ F).
    + tauto.
Qed.

(** C10.  In both outgoing branches the fee and the amount are held in
    [uint64_t]: each is the integer its expression denotes, reduced
    modulo 2^64, and so never negative.  When amountOut > amountIn the
    fee is amountIn - amountOut + 2^64, a positive value; when the fee
    did not wrap and change + fee > amountIn, the amount is
    amountIn - change - fee + 2^64, a positive value.  Neither branch
    guards against this: a body throws only where the payment id, the
    label or an address throws. *)
Theorem outgoing_amounts_wrap :
  (forall w wallet_height i ti,
      from_out_payment w wallet_height i = Ok ti ->
      let amount_in := confirmed_transfer_details.m_amount_in (snd i) in
      let amount_out := confirmed_transfer_details.m_amount_out (snd i) in
      let change :=
        known_change (confirmed_transfer_details.m_change (snd i)) in
      is_uint64 amount_in -> is_uint64 amount_out ->
      is_uint64 (confirmed_transfer_details.m_change (snd i)) ->
      stored_unsigned (m_fee ti) (exact_fee amount_in amount_out) /\
      stored_unsigned (m_amount ti)
        (exact_amount amount_in change (m_fee ti)) /\
      (amount_out > amount_in ->
         m_fee ti = exact_fee amount_in amount_out + 2 ^ 64 /\
         0 < m_fee ti) /\
      (amount_out <= amount_in -> change + m_fee ti > amount_in ->
         m_amount ti = exact_amount amount_in change (m_fee ti) + 2 ^ 64 /\
         0 < m_amount ti)) /\
  (forall w i ti,
      from_upayment_out w i = Ok ti ->
      let amount_in := unconfirmed_transfer_details.m_amount_in (snd i) in
      let amount_out := unconfirmed_transfer_details.m_amount_out (snd i) in
      let change := unconfirmed_transfer_details.m_change (snd i) in
      is_uint64 amount_in -> is_uint64 amount_out -> is_uint64 change ->
      stored_unsigned (m_fee ti) (exact_fee amount_in amount_out) /\
      stored_unsigned (m_amount ti)
        (exact_amount amount_in change (m_fee ti)) /\
      (amount_out > amount_in ->
         m_fee ti = exact_fee amount_in amount_out + 2 ^ 64 /\
         0 < m_fee ti) /\
      (amount_out <= amount_in -> change + m_fee ti > amount_in ->
         m_amount ti = exact_amount amount_in change (m_fee ti) + 2 ^ 64 /\
         0 < m_amount ti)) /\
  (forall w wallet_height i e,
      from_out_payment w wallet_height i = Throw e ->
      display_payment_id
        (type_to_hex (confirmed_transfer_details.m_payment_id (snd i)))
      = Throw e \/
      label_of_indices w
        (confirmed_transfer_details.m_subaddr_account (snd i))
        (confirmed_transfer_details.m_subaddr_indices (snd i))
      = Throw e \/
      mapR (transfer_of_dest w
              (confirmed_transfer_details.m_payment_id (snd i)))
        (confirmed_transfer_details.m_dests (snd i))
      = Throw e) /\
  (forall w i e,
      from_upayment_out w i = Throw e ->
      display_payment_id
        (type_to_hex (unconfirmed_transfer_details.m_payment_id (snd i)))
      = Throw e \/
      label_of_indices w
        (unconfirmed_transfer_details.m_subaddr_account (snd i))
        (unconfirmed_transfer_details.m_subaddr_indices (snd i))
      = Throw e).
Proof.
  assert (derive : forall amount_in amount_out change,
    is_uint64 amount_in -> is_uint64 amount_out -> is_uint64 change ->
    let fee := u64 (amount_in - amount_out) in
    let amount := u64 (u64 (amount_in - change) - fee) in
    stored_unsigned fee (exact_fee amount_in amount_out) /\
    stored_unsigned amount (exact_amount amount_in change fee) /\
    (amount_out > amount_in ->
       fee = exact_fee amount_in amount_out + 2 ^ 64 /\ 0 < fee) /\
    (amount_out <= amount_in -> change + fee > amount_in ->
       amount = exact_amount amount_in change fee + 2 ^ 64 /\ 0 < amount)).
  { intros a o c Ha Ho Hc fee amount. subst amount. rewrite u64_sub_l.
    unfold stored_unsigned, exact_fee, exact_amount.
    unfold is_uint64, UINT64_MAX in Ha, Ho, Hc.
    split; [split; [reflexivity|apply u64_range]|].
    split; [split; [reflexivity|apply u64_range]|].
    split.
    - intros Hgt. subst fee. rewrite u64_borrow by lia. lia.
    - intros Hle Hover.
      assert (Hfee : fee = a - o)
        by (subst fee; apply u64_small; unfold is_uint64, UINT64_MAX; lia).
      rewrite u64_borrow by lia. lia. }
  split; [|split; [|split]].
  - intros w wh i ti H amount_in amount_out change Ha Ho Hc. produced H.
    apply derive; auto.
    unfold known_change.
    destruct (Z.eqb_spec (confirmed_transfer_details.m_change (snd i))
                UINT64_MAX); [|assumption].
    unfold is_uint64, UINT64_MAX. lia.
  - intros w i ti H amount_in amount_out change Ha Ho Hc. produced H.
    apply derive; auto.
  - intros w wh i e H. split_calls H; injection H as <-; auto.
  - intros w i e H. split_calls H; injection H as <-; auto.
Qed.

End Bodies.

(** ** The claims about [refresh] *)

Section Claims.
Context {hash network_type : Type} {hex : ToHex hash}.
Implicit Types (m_wallet : WalletImpl.t hash network_type)
  (w : wallet2.t hash network_type) (h : history)
  (ti : TransactionInfoImpl).

(** C3.  On a payment id of at least 16 characters the normalization
    never throws; its result is the first 16 characters when every
    character from index 16 on is '0', and the whole string otherwise;
    the payment id of a record that any of the four loop bodies
    produces is that result; each of the four bodies does produce a
    record with that payment id whenever its calls into the wallet
    succeed; and when a body throws, the exception is the one of a
    call into the wallet, never one of the normalization. *)
Theorem payment_id_display (s : string) :
  (16 <= String.length s)%nat ->
  (exists shown, display_payment_id s = Ok shown /\ displayed_as s shown) /\
  (forall w wallet_height i ti,
      type_to_hex (fst i) = s ->
      from_in_payment w wallet_height i = Ok ti ->
      displayed_as s (m_paymentid ti)) /\
  (forall w wallet_height i ti,
      type_to_hex (confirmed_transfer_details.m_payment_id (snd i)) = s ->
      from_out_payment w wallet_height i = Ok ti ->
      displayed_as s (m_paymentid ti)) /\
  (forall w i ti,
      type_to_hex (unconfirmed_transfer_details.m_payment_id (snd i)) = s ->
      from_upayment_out w i = Ok ti ->
      displayed_as s (m_paymentid ti)) /\
  (forall w i ti,
      type_to_hex (fst i) = s ->
      from_upayment w i = Ok ti ->
      displayed_as s (m_paymentid ti)) /\
  (forall w wallet_height i label,
      type_to_hex (fst i) = s ->
      wallet2.get_subaddress_label w
        (payment_details.m_subaddr_index (snd i)) = Ok label ->
      exists ti,
        from_in_payment w wallet_height i = Ok ti /\
        displayed_as s (m_paymentid ti)) /\
  (forall w wallet_height i label transfers,
      type_to_hex (confirmed_transfer_details.m_payment_id (snd i)) = s ->
      label_of_indices w
        (confirmed_transfer_details.m_subaddr_account (snd i))
        (confirmed_transfer_details.m_subaddr_indices (snd i))
      = Ok label ->
      mapR (transfer_of_dest w
              (confirmed_transfer_details.m_payment_id (snd i)))
        (confirmed_transfer_details.m_dests (snd i))
      = Ok transfers ->
      exists ti,
        from_out_payment w wallet_height i = Ok ti /\
        displayed_as s (m_paymentid ti)) /\
  (forall w i label,
      type_to_hex (unconfirmed_transfer_details.m_payment_id (snd i)) = s ->
      label_of_indices w
        (unconfirmed_transfer_details.m_subaddr_account (snd i))
        (unconfirmed_transfer_details.m_subaddr_indices (snd i))
      = Ok label ->
      exists ti,
        from_upayment_out w i = Ok ti /\
        displayed_as s (m_paymentid ti)) /\
  (forall w i label,
      type_to_hex (fst i) = s ->
      wallet2.get_subaddress_label w
        (payment_details.m_subaddr_index
           (pool_payment_details.m_pd (snd i))) = Ok label ->
      exists ti,
        from_upayment w i = Ok ti /\
        displayed_as s (m_paymentid ti)) /\
  (forall w wallet_height i e,
      type_to_hex (fst i) = s ->
      from_in_payment w wallet_height i = Throw e ->
      wallet2.get_subaddress_label w
        (payment_details.m_subaddr_index (snd i)) = Throw e) /\
  (forall w wallet_height i e,
      type_to_hex (confirmed_transfer_details.m_payment_id (snd i)) = s ->
      from_out_payment w wallet_height i = Throw e ->
      label_of_indices w
        (confirmed_transfer_details.m_subaddr_account (snd i))
        (confirmed_transfer_details.m_subaddr_indices (snd i))
      = Throw e \/
      mapR (transfer_of_dest w
              (confirmed_transfer_details.m_payment_id (snd i)))
        (confirmed_transfer_details.m_dests (snd i))
      = Throw e) /\
  (forall w i e,
      type_to_hex (unconfirmed_transfer_details.m_payment_id (snd i)) = s ->
      from_upayment_out w i = Throw e ->
      label_of_indices w
        (unconfirmed_transfer_details.m_subaddr_account (snd i))
        (unconfirmed_transfer_details.m_subaddr_indices (snd i))
      = Throw e) /\
  (forall w i e,
      type_to_hex (fst i) = s ->
      from_upayment w i = Throw e ->
      wallet2.get_subaddress_label w
        (payment_details.m_subaddr_index
           (pool_payment_details.m_pd (snd i))) = Throw e).
Proof.
  intros Hlen.
  destruct (display_payment_id_total s Hlen) as [p Hp].
  assert (Hd : displayed_as s p) by now apply display_payment_id_Ok.
  split; [eauto|].
  split; [intros w wh i ti <- H; produced H;
          now apply display_payment_id_Ok|].
  split; [intros w wh i ti <- H; produced H;
          now apply display_payment_id_Ok|].
  split; [intros w i ti <- H; produced H;
          now apply display_payment_id_Ok|].
  split; [intros w i ti <- H; produced H;
          now apply display_payment_id_Ok|].
  split; [intros w wh i label Hs Hl; unfold from_in_payment;
          rewrite Hs, Hp, Hl; eexists; split; [reflexivity|exact Hd]|].
  split; [intros w wh i label transfers Hs Hl Ht; unfold from_out_payment;
          rewrite Hs, Hp, Hl, Ht; eexists; split; [reflexivity|exact Hd]|].
  split; [intros w i label Hs Hl; unfold from_upayment_out;
          rewrite Hs, Hp, Hl; eexists; split; [reflexivity|exact Hd]|].
  split; [intros w i label Hs Hl; unfold from_upayment;
          rewrite Hs, Hp, Hl; eexists; split; [reflexivity|exact Hd]|].
  split; [intros w wh i e Hs H; unfold from_in_payment in H;
          rewrite Hs, Hp in H; split_calls H; injection H as <-; reflexivity|].
  split; [intros w wh i e Hs H; unfold from_out_payment in H;
          rewrite Hs, Hp in H; split_calls H; injection H as <-; auto|].
  split; [intros w i e Hs H; unfold from_upayment_out in H;
          rewrite Hs, Hp in H; split_calls H; injection H as <-; reflexivity|].
  intros w i e Hs H; unfold from_upayment in H;
    rewrite Hs, Hp in H; split_calls H; injection H as <-; reflexivity.
Qed.

Lemma confirmations_exact wallet_height block_height :
  is_uint64 wallet_height -> is_uint64 block_height ->
  (if wallet_height >? block_height
   then u64 (wallet_height - block_height) else 0)
  = confirmations_at wallet_height block_height.
Proof.
  unfold confirmations_at. intros Hw Hb.
  destruct (Z.gtb_spec wallet_height block_height); [|reflexivity].
  apply u64_small. unfold is_uint64 in *. lia.
Qed.

Lemma Forall2_with {A B} (P : A -> Prop) (Q R : A -> B -> Prop) l l' :
  (forall a b, P a -> Q a b -> R a b) ->
  Forall P l -> Forall2 Q l l' -> Forall2 R l l'.
Proof.
  intros HPQ HP HQ. induction HQ; constructor; inversion HP; subst; auto.
Qed.

(** C4.  After a successful [refresh] at wallet height [wallet_height]
    the history is the concatenation of four groups, one per source;
    every record of the two confirmed groups has
    confirmations = (wallet_height > block_height ? wallet_height -
    block_height : 0) for the block height of the entry it was made
    from, and every record of the two pending groups has
    confirmations = 0.  Heights are [uint64_t] values. *)
Theorem confirmations_of_refresh m_wallet h h' wallet_height ps os :
  refresh m_wallet h = (Ok tt, h') ->
  WalletImpl.blockChainHeight m_wallet = Ok wallet_height ->
  wallet2.get_payments (WalletImpl.wallet m_wallet) 0 UINT64_MAX = Ok ps ->
  wallet2.get_payments_out (WalletImpl.wallet m_wallet) 0 UINT64_MAX
  = Ok os ->
  is_uint64 wallet_height ->
  Forall (fun i => is_uint64 (payment_details.m_block_height (snd i))) ps ->
  Forall (fun i =>
            is_uint64 (confirmed_transfer_details.m_block_height (snd i)))
    os ->
  exists us pool l1 l2 l3 l4,
    wallet2.get_unconfirmed_payments_out (WalletImpl.wallet m_wallet)
    = Ok us /\
    wallet2.get_unconfirmed_payments (WalletImpl.wallet m_wallet)
    = Ok pool /\
    h' = l1 ++ l2 ++ l3 ++ l4 /\
    Forall2 (fun i ti =>
               from_in_payment (WalletImpl.wallet m_wallet) wallet_height i
               = Ok ti /\
               m_confirmations ti
               = confirmations_at wallet_height
                   (payment_details.m_block_height (snd i))) ps l1 /\
    Forall2 (fun i ti =>
               from_out_payment (WalletImpl.wallet m_wallet) wallet_height i
               = Ok ti /\
               m_confirmations ti
               = confirmations_at wallet_height
                   (confirmed_transfer_details.m_block_height (snd i)))
      os l2 /\
    Forall2 (fun i ti =>
               from_upayment_out (WalletImpl.wallet m_wallet) i = Ok ti /\
               m_confirmations ti = 0) us l3 /\
    Forall2 (fun i ti =>
               from_upayment (WalletImpl.wallet m_wallet) i = Ok ti /\
               m_confirmations ti = 0) pool l4.
Proof.
  intros Hr Hh Hp Ho Hwh Hps Hos.
  destruct (refresh_Ok_inv _ _ _ Hr)
    as (wh & ps' & os' & us & pool & l1 & l2 & l3 & l4
        & Hh' & Hp' & Ho' & Hu & Hq & F1 & F2 & F3 & F4 & ->).
  rewrite Hh in Hh'. injection Hh' as <-.
  rewrite Hp in Hp'. injection Hp' as <-.
  rewrite Ho in Ho'. injection Ho' as <-.
  exists us, pool, l1, l2, l3, l4.
  split; [assumption|]. split; [assumption|]. split; [reflexivity|].
  split; [|split; [|split]].
  - eapply Forall2_with; [|exact Hps|exact F1]. cbv beta.
    intros i ti Hi H. split; [assumption|]. produced H.
    now apply confirmations_exact.
  - eapply Forall2_with; [|exact Hos|exact F2]. cbv beta.
    intros i ti Hi H. split; [assumption|]. produced H.
    now apply confirmations_exact.
  - eapply Forall2_impl; [|exact F3]. cbv beta.
    intros i ti H. split; [assumption|]. now produced H.
  - eapply Forall2_impl; [|exact F4]. cbv beta.
    intros i ti H. split; [assumption|]. now produced H.
Qed.

(** C5, as amended.  After a successful [refresh] the history is the
    records made of the confirmed incoming payments, then those of the
    confirmed outgoing transfers, then those of the pending outgoing
    transfers, then those of the pool payments, each group in the order
    of its source; [getAll()] is this list, of N entries for N entries
    in the four sources together; and [count()] is N whenever N is at
    most [INT_MAX]. *)
Theorem refresh_order_and_count m_wallet h h' :
  refresh m_wallet h = (Ok tt, h') ->
  exists wallet_height ps os us pool l1 l2 l3 l4,
    WalletImpl.blockChainHeight m_wallet = Ok wallet_height /\
    wallet2.get_payments (WalletImpl.wallet m_wallet) 0 UINT64_MAX
    = Ok ps /\
    wallet2.get_payments_out (WalletImpl.wallet m_wallet) 0 UINT64_MAX
    = Ok os /\
    wallet2.get_unconfirmed_payments_out (WalletImpl.wallet m_wallet)
    = Ok us /\
    wallet2.get_unconfirmed_payments (WalletImpl.wallet m_wallet)
    = Ok pool /\
    Forall2 (fun i ti =>
               from_in_payment (WalletImpl.wallet m_wallet) wallet_height i
               = Ok ti) ps l1 /\
    Forall2 (fun i ti =>
               from_out_payment (WalletImpl.wallet m_wallet) wallet_height i
               = Ok ti) os l2 /\
    Forall2 (fun i ti =>
               from_upayment_out (WalletImpl.wallet m_wallet) i = Ok ti)
      us l3 /\
    Forall2 (fun i ti =>
               from_upayment (WalletImpl.wallet m_wallet) i = Ok ti)
      pool l4 /\
    getAll h' = l1 ++ l2 ++ l3 ++ l4 /\
    let N := (List.length ps + List.length os + List.length us
              + List.length pool)%nat in
    List.length (getAll h') = N /\
    (Z.of_nat N <= INT_MAX -> count h' = Z.of_nat N).
Proof.
  intros Hr.
  destruct (refresh_Ok_inv _ _ _ Hr)
    as (wh & ps & os & us & pool & l1 & l2 & l3 & l4
        & Hh & Hp & Ho & Hu & Hq & F1 & F2 & F3 & F4 & ->).
  exists wh, ps, os, us, pool, l1, l2, l3, l4.
  assert (Hlen : List.length (l1 ++ l2 ++ l3 ++ l4)
                 = (List.length ps + List.length os + List.length us
                    + List.length pool)%nat).
  { rewrite !length_app.
    rewrite (Forall2_length F1), (Forall2_length F2),
      (Forall2_length F3), (Forall2_length F4). lia. }
  do 9 (split; [assumption|]). split; [reflexivity|]. cbv zeta.
  split; [exact Hlen|].
  intros Hfit. rewrite <- Hlen in *. now apply count_exact.
Qed.

(** C1, as amended.  A query or a loop body that throws makes [refresh]
    throw the same exception to its caller.  The history it leaves is
    the one before the call only when the throw comes from the height
    query, which precedes the deletion; after that the old records are
    gone whatever happens, and the history is left holding exactly the
    records appended before the throw: none when the first source query
    throws, the records of the entries before the failing one when a
    loop body throws, and the records of all the sources read so far
    when a later source query throws.  Every failed [refresh] is one
    of these cases; it leaves what the same [refresh] leaves when it
    starts from an empty history. *)
Theorem refresh_failure m_wallet h :
  (forall e,
      WalletImpl.blockChainHeight m_wallet = Throw e ->
      refresh m_wallet h = (Throw e, h)) /\
  (forall wallet_height e,
      WalletImpl.blockChainHeight m_wallet = Ok wallet_height ->
      wallet2.get_payments (WalletImpl.wallet m_wallet) 0 UINT64_MAX
      = Throw e ->
      refresh m_wallet h = (Throw e, [])) /\
  (forall wallet_height ps l1 e,
      WalletImpl.blockChainHeight m_wallet = Ok wallet_height ->
      wallet2.get_payments (WalletImpl.wallet m_wallet) 0 UINT64_MAX
      = Ok ps ->
      Forall2 (fun i ti =>
                 from_in_payment (WalletImpl.wallet m_wallet)
                   wallet_height i = Ok ti) ps l1 ->
      wallet2.get_payments_out (WalletImpl.wallet m_wallet) 0 UINT64_MAX
      = Throw e ->
      refresh m_wallet h = (Throw e, l1)) /\
  (forall e h',
      refresh m_wallet h = (Throw e, h') ->
      (WalletImpl.blockChainHeight m_wallet = Throw e /\ h' = h) \/
      (exists wallet_height,
          WalletImpl.blockChainHeight m_wallet = Ok wallet_height /\
          refresh m_wallet [] = (Throw e, h'))) /\
  (forall e,
      WalletImpl.blockChainHeight m_wallet = Throw e \/
      wallet2.get_payments (WalletImpl.wallet m_wallet) 0 UINT64_MAX
      = Throw e \/
      wallet2.get_payments_out (WalletImpl.wallet m_wallet) 0 UINT64_MAX
      = Throw e \/
      wallet2.get_unconfirmed_payments_out (WalletImpl.wallet m_wallet)
      = Throw e \/
      wallet2.get_unconfirmed_payments (WalletImpl.wallet m_wallet)
      = Throw e ->
      exists e' h', refresh m_wallet h = (Throw e', h')) /\
  (forall wallet_height ps l1 e,
      WalletImpl.blockChainHeight m_wallet = Ok wallet_height ->
      wallet2.get_payments (WalletImpl.wallet m_wallet) 0 UINT64_MAX
      = Ok ps ->
      loop_stops (from_in_payment (WalletImpl.wallet m_wallet) wallet_height)
        ps e l1 ->
      refresh m_wallet h = (Throw e, l1)) /\
  (forall wallet_height ps os l1 l2 e,
      WalletImpl.blockChainHeight m_wallet = Ok wallet_height ->
      wallet2.get_payments (WalletImpl.wallet m_wallet) 0 UINT64_MAX
      = Ok ps ->
      loop_completes (from_in_payment (WalletImpl.wallet m_wallet) wallet_height)
        ps l1 ->
      wallet2.get_payments_out (WalletImpl.wallet m_wallet) 0 UINT64_MAX
      = Ok os ->
      loop_stops (from_out_payment (WalletImpl.wallet m_wallet) wallet_height)
        os e l2 ->
      refresh m_wallet h = (Throw e, l1 ++ l2)) /\
  (forall wallet_height ps os l1 l2 e,
      WalletImpl.blockChainHeight m_wallet = Ok wallet_height ->
      wallet2.get_payments (WalletImpl.wallet m_wallet) 0 UINT64_MAX
      = Ok ps ->
      loop_completes (from_in_payment (WalletImpl.wallet m_wallet) wallet_height)
        ps l1 ->
      wallet2.get_payments_out (WalletImpl.wallet m_wallet) 0 UINT64_MAX
      = Ok os ->
      loop_completes (from_out_payment (WalletImpl.wallet m_wallet) wallet_height)
        os l2 ->
      wallet2.get_unconfirmed_payments_out (WalletImpl.wallet m_wallet)
      = Throw e ->
      refresh m_wallet h = (Throw e, l1 ++ l2)) /\
  (forall wallet_height ps os us l1 l2 l3 e,
      WalletImpl.blockChainHeight m_wallet = Ok wallet_height ->
      wallet2.get_payments (WalletImpl.wallet m_wallet) 0 UINT64_MAX
      = Ok ps ->
      loop_completes (from_in_payment (WalletImpl.wallet m_wallet) wallet_height)
        ps l1 ->
      wallet2.get_payments_out (WalletImpl.wallet m_wallet) 0 UINT64_MAX
      = Ok os ->
      loop_completes (from_out_payment (WalletImpl.wallet m_wallet) wallet_height)
        os l2 ->
      wallet2.get_unconfirmed_payments_out (WalletImpl.wallet m_wallet)
      = Ok us ->
      loop_stops (from_upayment_out (WalletImpl.wallet m_wallet))
        us e l3 ->
      refresh m_wallet h = (Throw e, l1 ++ l2 ++ l3)) /\
  (forall wallet_height ps os us l1 l2 l3 e,
      WalletImpl.blockChainHeight m_wallet = Ok wallet_height ->
      wallet2.get_payments (WalletImpl.wallet m_wallet) 0 UINT64_MAX
      = Ok ps ->
      loop_completes (from_in_payment (WalletImpl.wallet m_wallet) wallet_height)
        ps l1 ->
      wallet2.get_payments_out (WalletImpl.wallet m_wallet) 0 UINT64_MAX
      = Ok os ->
      loop_completes (from_out_payment (WalletImpl.wallet m_wallet) wallet_height)
        os l2 ->
      wallet2.get_unconfirmed_payments_out (WalletImpl.wallet m_wallet)
      = Ok us ->
      loop_completes (from_upayment_out (WalletImpl.wallet m_wallet))
        us l3 ->
      wallet2.get_unconfirmed_payments (WalletImpl.wallet m_wallet)
      = Throw e ->
      refresh m_wallet h = (Throw e, l1 ++ l2 ++ l3)) /\
  (forall wallet_height ps os us pool l1 l2 l3 l4 e,
      WalletImpl.blockChainHeight m_wallet = Ok wallet_height ->
      wallet2.get_payments (WalletImpl.wallet m_wallet) 0 UINT64_MAX
      = Ok ps ->
      loop_completes (from_in_payment (WalletImpl.wallet m_wallet) wallet_height)
        ps l1 ->
      wallet2.get_payments_out (WalletImpl.wallet m_wallet) 0 UINT64_MAX
      = Ok os ->
      loop_completes (from_out_payment (WalletImpl.wallet m_wallet) wallet_height)
        os l2 ->
      wallet2.get_unconfirmed_payments_out (WalletImpl.wallet m_wallet)
      = Ok us ->
      loop_completes (from_upayment_out (WalletImpl.wallet m_wallet))
        us l3 ->
      wallet2.get_unconfirmed_payments (WalletImpl.wallet m_wallet)
      = Ok pool ->
      loop_stops (from_upayment (WalletImpl.wallet m_wallet))
        pool e l4 ->
      refresh m_wallet h = (Throw e, l1 ++ l2 ++ l3 ++ l4)) /\
  (forall e h',
      refresh m_wallet h = (Throw e, h') ->
      (WalletImpl.blockChainHeight m_wallet = Throw e /\ h' = h) \/
      exists wallet_height,
        WalletImpl.blockChainHeight m_wallet = Ok wallet_height /\
        ((wallet2.get_payments (WalletImpl.wallet m_wallet) 0 UINT64_MAX = Throw e /\
          h' = []) \/
         exists ps,
           wallet2.get_payments (WalletImpl.wallet m_wallet) 0 UINT64_MAX = Ok ps /\
           ((loop_stops (from_in_payment (WalletImpl.wallet m_wallet) wallet_height) ps e h') \/
            exists l1,
              loop_completes (from_in_payment (WalletImpl.wallet m_wallet) wallet_height) ps l1 /\
              ((wallet2.get_payments_out (WalletImpl.wallet m_wallet) 0 UINT64_MAX = Throw e /\
                h' = l1) \/
               exists os,
                 wallet2.get_payments_out (WalletImpl.wallet m_wallet) 0 UINT64_MAX = Ok os /\
                 ((exists l2, loop_stops (from_out_payment (WalletImpl.wallet m_wallet) wallet_height) os e l2 /\ h' = l1 ++ l2) \/
                  exists l2,
                    loop_completes (from_out_payment (WalletImpl.wallet m_wallet) wallet_height) os l2 /\
                    ((wallet2.get_unconfirmed_payments_out (WalletImpl.wallet m_wallet) = Throw e /\
                      h' = l1 ++ l2) \/
                     exists us,
                       wallet2.get_unconfirmed_payments_out (WalletImpl.wallet m_wallet) = Ok us /\
                       ((exists l3,
                            loop_stops (from_upayment_out (WalletImpl.wallet m_wallet)) us e l3 /\
                            h' = l1 ++ l2 ++ l3) \/
                        exists l3,
                          loop_completes (from_upayment_out (WalletImpl.wallet m_wallet)) us l3 /\
                          ((wallet2.get_unconfirmed_payments (WalletImpl.wallet m_wallet) = Throw e /\
                            h' = l1 ++ l2 ++ l3) \/
                           exists pool l4,
                             wallet2.get_unconfirmed_payments (WalletImpl.wallet m_wallet) = Ok pool /\
                             loop_stops (from_upayment (WalletImpl.wallet m_wallet)) pool e l4 /\
                             h' = l1 ++ l2 ++ l3 ++ l4)))))))).
Proof.
  assert (step : forall {A} (f : A -> result TransactionInfoImpl) l out,
             loop_completes f l out -> appended f l = (Ok tt, out))
    by (intros A f l out F; now apply appended_Ok).
  split; [intros e He; now apply refresh_height_throw|].
  split; [intros wh e Hh He; now apply refresh_payments_throw with wh|].
  split; [intros wh ps l1 e Hh Hp F1 He;
          now apply refresh_payments_out_throw with wh ps|].
  split.
  { intros e h' Hr.
    destruct (WalletImpl.blockChainHeight m_wallet) as [wh|e0] eqn:Hh.
    - right. exists wh. split; [reflexivity|].
      now rewrite <- (refresh_forgets m_wallet h wh Hh).
    - left. rewrite (refresh_height_throw _ _ _ Hh) in Hr.
      injection Hr as <- <-. auto. }
  split.
  { intros e He.
    destruct (refresh m_wallet h) as [[[]|e'] h'] eqn:Hr; [|eauto].
    destruct (refresh_Ok_inv _ _ _ Hr)
      as (wh & ps & os & us & pool & l1 & l2 & l3 & l4
          & Hh & Hp & Ho & Hu & Hq & _).
    rewrite Hh, Hp, Ho, Hu, Hq in He.
    destruct He as [F|[F|[F|[F|F]]]]; discriminate F. }
  split.
  { intros wh ps l1 e Hh Hp S1. unfold refresh.
    rewrite call_then, Hh, clear_then, call_then, Hp, loop_then.
    now rewrite (appended_stops _ _ _ _ S1). }
  split.
  { intros wh ps os l1 l2 e Hh Hp F1 Ho S2. unfold refresh.
    rewrite call_then, Hh, clear_then, call_then, Hp, loop_then,
      (step _ _ _ _ F1).
    rewrite call_then, Ho, loop_then.
    now rewrite (appended_stops _ _ _ _ S2). }
  split.
  { intros wh ps os l1 l2 e Hh Hp F1 Ho F2 Hu. unfold refresh.
    rewrite call_then, Hh, clear_then, call_then, Hp, loop_then,
      (step _ _ _ _ F1).
    rewrite call_then, Ho, loop_then, (step _ _ _ _ F2).
    now rewrite call_then, Hu. }
  split.
  { intros wh ps os us l1 l2 l3 e Hh Hp F1 Ho F2 Hu S3. unfold refresh.
    rewrite call_then, Hh, clear_then, call_then, Hp, loop_then,
      (step _ _ _ _ F1).
    rewrite call_then, Ho, loop_then, (step _ _ _ _ F2).
    rewrite call_then, Hu, loop_then, (appended_stops _ _ _ _ S3).
    simpl. now rewrite <- app_assoc. }
  split.
  { intros wh ps os us l1 l2 l3 e Hh Hp F1 Ho F2 Hu F3 Hq. unfold refresh.
    rewrite call_then, Hh, clear_then, call_then, Hp, loop_then,
      (step _ _ _ _ F1).
    rewrite call_then, Ho, loop_then, (step _ _ _ _ F2).
    rewrite call_then, Hu, loop_then, (step _ _ _ _ F3).
    rewrite call_then, Hq. simpl. now rewrite <- app_assoc. }
  split.
  { intros wh ps os us pool l1 l2 l3 l4 e Hh Hp F1 Ho F2 Hu F3 Hq S4.
    unfold refresh.
    rewrite call_then, Hh, clear_then, call_then, Hp, loop_then,
      (step _ _ _ _ F1).
    rewrite call_then, Ho, loop_then, (step _ _ _ _ F2).
    rewrite call_then, Hu, loop_then, (step _ _ _ _ F3).
    rewrite call_then, Hq, for_each_appended,
      (appended_stops _ _ _ _ S4).
    simpl. now rewrite <- !app_assoc. }
  intros e h'. unfold refresh. rewrite call_then.
  destruct (WalletImpl.blockChainHeight m_wallet) as [wh|e0];
    [|intros [= <- <-]; auto].
  intros Hr. right. exists wh. split; [reflexivity|]. revert Hr.
  rewrite clear_then, call_then.
  destruct (wallet2.get_payments _ _ _) as [ps|e0];
    [|intros [= <- <-]; auto].
  intros Hr. right. exists ps. split; [reflexivity|]. revert Hr.
  rewrite loop_then.
  destruct (appended _ ps) as [[[]|e0] l1] eqn:E1;
    [|intros [= <- <-]; left; now apply appended_Throw_inv].
  intros Hr. right. exists l1. split; [now apply appended_Ok|].
  revert Hr. simpl app. rewrite call_then.
  destruct (wallet2.get_payments_out _ _ _) as [os|e0];
    [|intros [= <- <-]; auto].
  intros Hr. right. exists os. split; [reflexivity|]. revert Hr.
  rewrite loop_then.
  destruct (appended _ os) as [[[]|e0] l2] eqn:E2;
    [|intros [= <- <-]; left; exists l2; split;
      [now apply appended_Throw_inv|reflexivity]].
  intros Hr. right. exists l2. split; [now apply appended_Ok|].
  revert Hr. rewrite call_then.
  destruct (wallet2.get_unconfirmed_payments_out _) as [us|e0];
    [|intros [= <- <-]; auto].
  intros Hr. right. exists us. split; [reflexivity|]. revert Hr.
  rewrite loop_then.
  destruct (appended _ us) as [[[]|e0] l3] eqn:E3;
    [|intros [= <- <-]; left; exists l3; split;
      [now apply appended_Throw_inv|now rewrite <- app_assoc]].
  intros Hr. right. exists l3. split; [now apply appended_Ok|].
  revert Hr. rewrite call_then.
  destruct (wallet2.get_unconfirmed_payments _) as [pool|e0];
    [|intros [= <- <-]; left; split;
      [reflexivity|now rewrite <- app_assoc]].
  rewrite for_each_appended.
  destruct (appended _ pool) as [[[]|e0] l4] eqn:E4; [discriminate|].
  simpl. intros [= <- <-]. right. exists pool, l4.
  split; [reflexivity|]. split; [now apply appended_Throw_inv|].
  now rewrite <- !app_assoc.
Qed.

(** C8.  Two consecutive calls of [refresh] on the same wallet leave
    histories of equal length whose hashes are the same multiset (and
    end the same way). *)
Theorem refresh_twice m_wallet h :
  let first := refresh m_wallet h in
  let second := refresh m_wallet (snd first) in
  fst second = fst first /\
  List.length (snd second) = List.length (snd first) /\
  Permutation (map m_hash (snd first)) (map m_hash (snd second)).
Proof.
  cbv zeta.
  assert (E : refresh m_wallet (snd (refresh m_wallet h))
              = refresh m_wallet h).
  { destruct (WalletImpl.blockChainHeight m_wallet) as [wh|e] eqn:Hh.
    - rewrite (refresh_forgets m_wallet h wh Hh).
      apply (refresh_forgets m_wallet _ wh Hh).
    - rewrite !(refresh_height_throw _ _ _ Hh). reflexivity. }
  rewrite E. auto using Permutation_refl.
Qed.

End Claims.

(** ** The claims on the sample wallets *)

Lemma sample_refresh :
  refresh Sample.m_wallet []
  = (Ok tt, [Sample.ti1; Sample.ti2; Sample.ti3; Sample.ti4]).
Proof. vm_compute. reflexivity. Qed.

(** C1, as stated, fails: when the first source query throws, the record
    the history held is gone ([count()] goes from 1 to 0); when the second
    throws, the history is left with the records of the first source
    alone. *)
Lemma refresh_failure_counterexample :
  (exists e after,
      refresh Sample.m_wallet_unreachable [Sample.ti4] = (Throw e, after) /\
      count after <> count [Sample.ti4] /\
      getAll after <> getAll [Sample.ti4]) /\
  (exists e after,
      refresh Sample.m_wallet_halfway [Sample.ti4] = (Throw e, after) /\
      getAll after = [Sample.ti1] /\
      getAll after <> getAll [Sample.ti4]).
Proof.
  split.
  - exists (wallet_error "unreachable"), [].
    split; [reflexivity|]. split; [|discriminate].
    vm_compute. discriminate.
  - exists (wallet_error "corrupt"), [Sample.ti1].
    split; [vm_compute; reflexivity|]. split; [reflexivity|].
    unfold getAll. intros F. injection F as F _. discriminate F.
Qed.

Lemma refresh_failure_witness :
  refresh Sample.m_wallet_unreachable [Sample.ti4]
  = (Throw (wallet_error "unreachable"), []) /\
  refresh Sample.m_wallet_halfway [Sample.ti4]
  = (Throw (wallet_error "corrupt"), [Sample.ti1]) /\
  refresh Sample.m_wallet_unlabelled [Sample.ti4]
  = (Throw (wallet_error "no label"), [Sample.ti1]) /\
  refresh Sample.m_wallet_pending_gone [Sample.ti4]
  = (Throw (wallet_error "pending gone"), [Sample.ti1; Sample.ti2]) /\
  refresh Sample.m_wallet_pool_gone [Sample.ti4]
  = (Throw (wallet_error "pool gone"),
     [Sample.ti1; Sample.ti2; Sample.ti3]).
Proof.
  assert (F1 : from_in_payment Sample.w 100 Sample.in_payment = Ok Sample.ti1)
    by (vm_compute; reflexivity).
  assert (F2 : from_out_payment Sample.w 100 Sample.out_payment
               = Ok Sample.ti2) by (vm_compute; reflexivity).
  assert (F3 : from_upayment_out Sample.w Sample.upayment_out = Ok Sample.ti3)
    by (vm_compute; reflexivity).
  split; [|split; [|split; [|split]]].
  - apply (proj1 (proj2 (refresh_failure Sample.m_wallet_unreachable
                           [Sample.ti4])) 100); reflexivity.
  - apply (proj1 (proj2 (proj2 (refresh_failure Sample.m_wallet_halfway
                                  [Sample.ti4])))
             100 [Sample.in_payment]); try reflexivity.
    constructor; [exact F1|constructor].
  - destruct (refresh_failure Sample.m_wallet_unlabelled [Sample.ti4])
      as (_ & _ & _ & _ & _ & body1 & _).
    apply (body1 100
             [Sample.in_payment; Sample.in_payment_unlabelled;
              Sample.in_payment]); try reflexivity.
    exists [Sample.in_payment], Sample.in_payment_unlabelled,
      [Sample.in_payment].
    split; [reflexivity|]. split; [|vm_compute; reflexivity].
    constructor; [vm_compute; reflexivity|constructor].
  - destruct (refresh_failure Sample.m_wallet_pending_gone [Sample.ti4])
      as (_ & _ & _ & _ & _ & _ & _ & query3 & _).
    apply (query3 100 [Sample.in_payment] [Sample.out_payment]
             [Sample.ti1] [Sample.ti2]); try reflexivity.
    + constructor; [exact F1|constructor].
    + constructor; [exact F2|constructor].
  - destruct (refresh_failure Sample.m_wallet_pool_gone [Sample.ti4])
      as (_ & _ & _ & _ & _ & _ & _ & _ & _ & query4 & _).
    apply (query4 100 [Sample.in_payment] [Sample.out_payment]
             [Sample.upayment_out] [Sample.ti1] [Sample.ti2] [Sample.ti3]);
      try reflexivity.
    + constructor; [exact F1|constructor].
    + constructor; [exact F2|constructor].
    + constructor; [exact F3|constructor].
Defined.

(** C2.  A pending transfer with amountIn = 110, amountOut = 100 and a
    raw change that is the UNKNOWN sentinel: the claim gives change 0,
    fee 10 and amount 100, which is what the confirmed loop makes of the
    same three amounts; the pending loop makes fee 10 and amount 101. *)
Lemma pending_outgoing_unknown_change :
  exists ti,
    from_upayment_out Sample.w Sample.upayment_out_unknown = Ok ti /\
    m_fee ti = 10 /\
    m_amount ti = 101 /\
    exact_amount 110 (known_change UINT64_MAX) (exact_fee 110 100) = 100 /\
    exists ti',
      from_out_payment Sample.w 100 Sample.out_payment = Ok ti' /\
      m_fee ti' = 10 /\
      m_amount ti' = 100.
Proof.
  eexists. split; [vm_compute; reflexivity|].
  split; [reflexivity|]. split; [reflexivity|]. split; [reflexivity|].
  eexists. split; [vm_compute; reflexivity|].
  split; reflexivity.
Qed.

Lemma pending_outgoing_witness :
  from_upayment_out Sample.w Sample.upayment_out = Ok Sample.ti3 /\
  m_fee Sample.ti3 = u64 (exact_fee 110 100) /\
  m_amount Sample.ti3 = u64 (exact_amount 110 7 (m_fee Sample.ti3)) /\
  m_confirmations Sample.ti3 = 0 /\
  m_pending Sample.ti3 = true /\
  (m_failed Sample.ti3 = true <->
     unconfirmed_transfer_details.failed
     = unconfirmed_transfer_details.failed) /\
  (m_amount Sample.ti3
   = u64 (exact_amount 110 (known_change 7) (m_fee Sample.ti3))
   <-> 7 <> UINT64_MAX).
Proof.
  assert (H : from_upayment_out Sample.w Sample.upayment_out = Ok Sample.ti3)
    by (vm_compute; reflexivity).
  split; [exact H|].
  exact (pending_outgoing_derivation Sample.w Sample.upayment_out
           Sample.ti3 H).
Defined.

Lemma payment_id_display_witness :
  ((16 <= String.length Sample.padded_id)%nat /\
   (exists shown,
       display_payment_id Sample.padded_id = Ok shown /\
       displayed_as Sample.padded_id shown) /\
   (exists ti,
       from_in_payment Sample.w 100 Sample.in_payment = Ok ti /\
       displayed_as Sample.padded_id (m_paymentid ti)) /\
   (exists ti,
       from_upayment_out Sample.w Sample.upayment_out = Ok ti /\
       displayed_as Sample.padded_id (m_paymentid ti))) /\
  ((16 <= String.length Sample.full_id)%nat /\
   (exists ti,
       from_out_payment Sample.w 100 Sample.out_payment = Ok ti /\
       displayed_as Sample.full_id (m_paymentid ti)) /\
   (exists ti,
       from_upayment Sample.w Sample.upayment = Ok ti /\
       displayed_as Sample.full_id (m_paymentid ti))).
Proof.
  assert (Hp : (16 <= String.length Sample.padded_id)%nat)
    by (vm_compute; lia).
  assert (Hf : (16 <= String.length Sample.full_id)%nat)
    by (vm_compute; lia).
  split.
  - destruct (payment_id_display (hash := string) (network_type := unit)
                Sample.padded_id Hp)
      as (shown & _ & _ & _ & _ & body1 & _ & body3 & _).
    split; [exact Hp|]. split; [exact shown|]. split.
    + apply (body1 Sample.w 100 Sample.in_payment "savings"%string);
        reflexivity.
    + apply (body3 Sample.w Sample.upayment_out "savings"%string);
        reflexivity.
  - destruct (payment_id_display (hash := string) (network_type := unit)
                Sample.full_id Hf)
      as (_ & _ & _ & _ & _ & _ & body2 & _ & body4 & _).
    split; [exact Hf|]. split.
    + apply (body2 Sample.w 100 Sample.out_payment "savings"%string
               [(100, "addr"%string)]); reflexivity.
    + apply (body4 Sample.w Sample.upayment "savings"%string); reflexivity.
Defined.

(** The two examples of the specification. *)
Lemma payment_id_display_examples :
  display_payment_id Sample.padded_id = Ok "a1b2c3d4e5f6a7b8"%string /\
  display_payment_id Sample.full_id = Ok Sample.full_id.
Proof. split; reflexivity. Qed.

Lemma confirmations_of_refresh_witness :
  exists us pool l1 l2 l3 l4,
    wallet2.get_unconfirmed_payments_out (WalletImpl.wallet Sample.m_wallet)
    = Ok us /\
    wallet2.get_unconfirmed_payments (WalletImpl.wallet Sample.m_wallet)
    = Ok pool /\
    [Sample.ti1; Sample.ti2; Sample.ti3; Sample.ti4] = l1 ++ l2 ++ l3 ++ l4 /\
    Forall2 (fun i ti =>
               from_in_payment (WalletImpl.wallet Sample.m_wallet) 100 i
               = Ok ti /\
               m_confirmations ti
               = confirmations_at 100
                   (payment_details.m_block_height (snd i)))
      [Sample.in_payment] l1 /\
    Forall2 (fun i ti =>
               from_out_payment (WalletImpl.wallet Sample.m_wallet) 100 i
               = Ok ti /\
               m_confirmations ti
               = confirmations_at 100
                   (confirmed_transfer_details.m_block_height (snd i)))
      [Sample.out_payment] l2 /\
    Forall2 (fun i ti =>
               from_upayment_out (WalletImpl.wallet Sample.m_wallet) i
               = Ok ti /\
               m_confirmations ti = 0) us l3 /\
    Forall2 (fun i ti =>
               from_upayment (WalletImpl.wallet Sample.m_wallet) i = Ok ti /\
               m_confirmations ti = 0) pool l4.
Proof.
  apply (confirmations_of_refresh Sample.m_wallet []
           [Sample.ti1; Sample.ti2; Sample.ti3; Sample.ti4] 100
           [Sample.in_payment] [Sample.out_payment]).
  - vm_compute. reflexivity.
  - reflexivity.
  - reflexivity.
  - reflexivity.
  - unfold is_uint64, UINT64_MAX. lia.
  - repeat constructor; simpl; unfold UINT64_MAX; lia.
  - repeat constructor; simpl; unfold UINT64_MAX; lia.
Defined.

(** The two examples of the specification for the confirmation count. *)
Lemma confirmations_examples :
  confirmations_at 100 40 = 60 /\ confirmations_at 100 150 = 0.
Proof. split; reflexivity. Qed.

Lemma refresh_order_and_count_witness :
  exists wallet_height ps os us pool l1 l2 l3 l4,
    WalletImpl.blockChainHeight Sample.m_wallet = Ok wallet_height /\
    wallet2.get_payments (WalletImpl.wallet Sample.m_wallet) 0 UINT64_MAX
    = Ok ps /\
    wallet2.get_payments_out (WalletImpl.wallet Sample.m_wallet) 0 UINT64_MAX
    = Ok os /\
    wallet2.get_unconfirmed_payments_out (WalletImpl.wallet Sample.m_wallet)
    = Ok us /\
    wallet2.get_unconfirmed_payments (WalletImpl.wallet Sample.m_wallet)
    = Ok pool /\
    Forall2 (fun i ti =>
               from_in_payment (WalletImpl.wallet Sample.m_wallet)
                 wallet_height i = Ok ti) ps l1 /\
    Forall2 (fun i ti =>
               from_out_payment (WalletImpl.wallet Sample.m_wallet)
                 wallet_height i = Ok ti) os l2 /\
    Forall2 (fun i ti =>
               from_upayment_out (WalletImpl.wallet Sample.m_wallet) i
               = Ok ti) us l3 /\
    Forall2 (fun i ti =>
               from_upayment (WalletImpl.wallet Sample.m_wallet) i = Ok ti)
      pool l4 /\
    getAll [Sample.ti1; Sample.ti2; Sample.ti3; Sample.ti4]
    = l1 ++ l2 ++ l3 ++ l4 /\
    let N := (List.length ps + List.length os + List.length us
              + List.length pool)%nat in
    List.length (getAll [Sample.ti1; Sample.ti2; Sample.ti3; Sample.ti4])
    = N /\
    (Z.of_nat N <= INT_MAX ->
     count [Sample.ti1; Sample.ti2; Sample.ti3; Sample.ti4] = Z.of_nat N).
Proof.
  apply (refresh_order_and_count Sample.m_wallet []).
  vm_compute. reflexivity.
Defined.

Lemma Forall2_repeat {A B} (P : A -> B -> Prop) a b n :
  P a b -> Forall2 P (repeat a n) (repeat b n).
Proof. intros H. induction n; simpl; constructor; auto. Qed.

(** C5, as stated, fails once the sources hold more than [INT_MAX]
    entries: a successful [refresh] over 2^31 confirmed incoming payments
    leaves 2^31 records, and [count()] is not 2^31. *)
Lemma refresh_count_counterexample :
  exists h',
    refresh Sample.m_wallet_many [] = (Ok tt, h') /\
    Z.of_nat (List.length (getAll h')) = 2 ^ 31 /\
    count h' <> 2 ^ 31.
Proof.
  exists (repeat Sample.ti1 Sample.many).
  split; [|split].
  - rewrite <- (app_nil_r (repeat Sample.ti1 Sample.many)).
    change (@nil TransactionInfoImpl) with (@nil TransactionInfoImpl ++ [] ++ [])
      at 2.
    apply refresh_complete
      with (wh := 100) (ps := repeat Sample.in_payment Sample.many)
           (os := []) (us := []) (pool := []).
    + reflexivity.
    + reflexivity.
    + reflexivity.
    + reflexivity.
    + reflexivity.
    + apply Forall2_repeat. reflexivity.
    + constructor.
    + constructor.
    + constructor.
  - unfold getAll. rewrite repeat_length. apply many_records.
  - rewrite count_many. lia.
Qed.

Lemma outgoing_amounts_wrap_witness :
  from_out_payment Sample.w 100 Sample.out_payment_underflow
  = Ok Sample.ti_underflow /\
  m_fee Sample.ti_underflow = exact_fee 100 110 + 2 ^ 64 /\
  0 < m_fee Sample.ti_underflow.
Proof.
  assert (H : from_out_payment Sample.w 100 Sample.out_payment_underflow
              = Ok Sample.ti_underflow) by (vm_compute; reflexivity).
  split; [exact H|].
  apply (proj1 (outgoing_amounts_wrap (hash := string) (network_type := unit))
           Sample.w 100 Sample.out_payment_underflow Sample.ti_underflow H);
    simpl; unfold is_uint64, UINT64_MAX; lia.
Defined.

(** ** Further properties of the loop bodies and of [refresh] *)

Lemma length_take n s :
  String.length (StdString.take n s) = Nat.min n (String.length s).
Proof.
  revert s; induction n as [|n IH]; intros [|a s]; simpl; auto.
Qed.

Lemma mapR_Ok {A B} (f : A -> result B) l l' :
  mapR f l = Ok l' -> Forall2 (fun x y => f x = Ok y) l l'.
Proof.
  revert l'; induction l as [|x l IH]; simpl; intros l' H.
  - injection H as <-. constructor.
  - unfold bindR in H. destruct (f x) as [y|] eqn:E; [|discriminate].
    destruct (mapR f l) as [ys|]; [|discriminate].
    injection H as <-. constructor; auto.
Qed.

Lemma Forall2_In_l {A B} (P : A -> B -> Prop) l l' x :
  Forall2 P l l' -> In x l -> exists y, In y l' /\ P x y.
Proof.
  induction 1 as [|a b l l' Hab _ IH]; simpl; [tauto|].
  intros [<-|Hin]; [eauto|].
  destruct (IH Hin) as (y & Hy & Hp). eauto.
Qed.

Lemma found_by_hash h ti :
  In ti h ->
  exists ti', transaction_by_id h (m_hash ti) = Some ti' /\
              m_hash ti' = m_hash ti.
Proof.
  intros Hin. unfold transaction_by_id.
  destruct (find (fun t => String.eqb (m_hash t) (m_hash ti)) h)
    as [t0|] eqn:E.
  - exists t0. split; [reflexivity|].
    apply find_some in E. now apply String.eqb_eq.
  - pose proof (find_none _ _ E _ Hin) as F. simpl in F.
    rewrite String.eqb_refl in F. discriminate F.
Qed.

Section More.
Context {hash network_type : Type} {hex : ToHex hash}.
Implicit Types (m_wallet : WalletImpl.t hash network_type)
  (w : wallet2.t hash network_type) (h : history)
  (ti : TransactionInfoImpl).

(** X1.  Normalizing a payment id is idempotent: the id a record shows
    is left as it is when it is normalized again, and it has at least
    16 characters and at most as many as the raw rendering. *)
Theorem display_payment_id_idempotent (s shown : string) :
  display_payment_id s = Ok shown ->
  display_payment_id shown = Ok shown /\
  (16 <= String.length shown <= String.length s)%nat.
Proof.
  intros H. destruct (display_payment_id_Ok _ _ H) as [Hlen [Hpad Hfull]].
  destruct (zero_padded_dec s Hlen) as [Hz|Hz].
  - rewrite (Hpad Hz), <- take_substring.
    assert (Hl : String.length (StdString.take 16 s) = 16%nat)
      by (rewrite length_take; lia).
    split; [|lia].
    rewrite display_payment_id_padded.
    + rewrite <- take_substring. f_equal. apply take_all. lia.
    + lia.
    + intros i Hi. lia.
  - assert (E := Hfull Hz). subst shown. split; [assumption|lia].
Qed.

(** X2.  A payment id whose hex rendering has fewer than 16 characters
    makes each of the four loop bodies throw [std::out_of_range] (from
    [substr(16)]), before any call into the wallet. *)
Theorem short_payment_id_throws :
  (forall w wallet_height i,
      (String.length (type_to_hex (fst i)) < 16)%nat ->
      from_in_payment w wallet_height i = Throw out_of_range) /\
  (forall w wallet_height i,
      (String.length
         (type_to_hex (confirmed_transfer_details.m_payment_id (snd i)))
       < 16)%nat ->
      from_out_payment w wallet_height i = Throw out_of_range) /\
  (forall w i,
      (String.length
         (type_to_hex (unconfirmed_transfer_details.m_payment_id (snd i)))
       < 16)%nat ->
      from_upayment_out w i = Throw out_of_range) /\
  (forall w i,
      (String.length (type_to_hex (fst i)) < 16)%nat ->
      from_upayment w i = Throw out_of_range).
Proof.
  split; [|split; [|split]]; intros;
    unfold from_in_payment, from_out_payment, from_upayment_out,
      from_upayment;
    rewrite display_payment_id_short by assumption; reflexivity.
Qed.

(** X3.  The amount of an outgoing record does not depend on amountIn:
    it is amountOut - change modulo 2^64 (change read as 0 when UNKNOWN
    in the confirmed loop, raw in the pending loop), and exactly
    amountOut - change when the change does not exceed amountOut. *)
Theorem outgoing_amount_net :
  (forall w wallet_height i ti,
      from_out_payment w wallet_height i = Ok ti ->
      let amount_out := confirmed_transfer_details.m_amount_out (snd i) in
      let change :=
        known_change (confirmed_transfer_details.m_change (snd i)) in
      m_amount ti = u64 (amount_out - change) /\
      (0 <= change <= amount_out -> amount_out <= UINT64_MAX ->
       m_amount ti = amount_out - change)) /\
  (forall w i ti,
      from_upayment_out w i = Ok ti ->
      let amount_out := unconfirmed_transfer_details.m_amount_out (snd i) in
      let change := unconfirmed_transfer_details.m_change (snd i) in
      m_amount ti = u64 (amount_out - change) /\
      (0 <= change <= amount_out -> amount_out <= UINT64_MAX ->
       m_amount ti = amount_out - change)).
Proof.
  assert (net : forall a o c,
    u64 (u64 (a - c) - u64 (a - o)) = u64 (o - c)).
  { intros a o c. rewrite u64_sub_l. unfold u64.
    rewrite Zminus_mod_idemp_r. f_equal. ring. }
  split.
  - intros w wh i ti H amount_out change. produced H.
    fold (known_change (confirmed_transfer_details.m_change (snd i))).
    fold change amount_out. rewrite net. split; [reflexivity|].
    intros Hc Ho. apply u64_small. unfold is_uint64. lia.
  - intros w i ti H amount_out change. produced H.
    fold change amount_out. rewrite net. split; [reflexivity|].
    intros Hc Ho. apply u64_small. unfold is_uint64. lia.
Qed.

(** X4.  A confirmed outgoing record has one transfer per destination
    of the source entry, in the order of the destinations, each with
    the amount of its destination and the address the destination
    resolves to for the wallet's network type and the payment id. *)
Theorem confirmed_transfers w wallet_height i ti :
  from_out_payment w wallet_height i = Ok ti ->
  map fst (m_transfers ti)
  = map tx_destination_entry.amount
      (confirmed_transfer_details.m_dests (snd i)) /\
  Forall2 (fun d t =>
             exists nt,
               wallet2.nettype w = Ok nt /\
               tx_destination_entry.address d nt
                 (confirmed_transfer_details.m_payment_id (snd i))
               = Ok (snd t))
    (confirmed_transfer_details.m_dests (snd i)) (m_transfers ti).
Proof.
  intros H. produced H. simpl app.
  match goal with Hm : mapR _ _ = Ok _ |- _ => apply mapR_Ok in Hm;
    induction Hm as [|d t ds ts Hd _ [IH1 IH2]] end.
  - split; constructor.
  - unfold transfer_of_dest, bindR in Hd.
    destruct (wallet2.nettype w) as [nt|] eqn:En; [|discriminate].
    destruct (tx_destination_entry.address d nt _) as [addr|] eqn:Ea;
      [|discriminate].
    injection Hd as <-. simpl. split; [now f_equal|].
    constructor; [|assumption]. exists nt. auto.
Qed.

(** X5.  The label of an outgoing record (confirmed or pending) is
    empty unless the transfer has exactly one subaddress index, in
    which case it is the wallet's label of that subaddress of the
    transfer's account. *)
Theorem outgoing_label :
  (forall w wallet_height i ti,
      from_out_payment w wallet_height i = Ok ti ->
      (List.length (confirmed_transfer_details.m_subaddr_indices (snd i))
       <> 1%nat -> m_label ti = EmptyString) /\
      (forall idx,
          confirmed_transfer_details.m_subaddr_indices (snd i) = [idx] ->
          wallet2.get_subaddress_label w
            {| major := confirmed_transfer_details.m_subaddr_account (snd i);
               minor := idx |}
          = Ok (m_label ti))) /\
  (forall w i ti,
      from_upayment_out w i = Ok ti ->
      (List.length (unconfirmed_transfer_details.m_subaddr_indices (snd i))
       <> 1%nat -> m_label ti = EmptyString) /\
      (forall idx,
          unconfirmed_transfer_details.m_subaddr_indices (snd i) = [idx] ->
          wallet2.get_subaddress_label w
            {| major :=
                 unconfirmed_transfer_details.m_subaddr_account (snd i);
               minor := idx |}
          = Ok (m_label ti))).
Proof.
  assert (rule : forall w account indices label,
    label_of_indices w account indices = Ok label ->
    (List.length indices <> 1%nat -> label = EmptyString) /\
    (forall idx, indices = [idx] ->
       wallet2.get_subaddress_label w {| major := account; minor := idx |}
       = Ok label)).
  { intros w account indices label H. unfold label_of_indices in H. split.
    - intros Hn. destruct (Nat.eqb_spec (List.length indices) 1);
        [contradiction|congruence].
    - intros idx ->. exact H. }
  split.
  - intros w wh i ti H. produced H. now apply rule.
  - intros w i ti H. produced H. now apply rule.
Qed.

(** X6.  An incoming record (confirmed or from the pool) has reward
    type miner or service node exactly for these two pay types and
    unspecified for every other, and is a stake exactly for the pay
    type stake; so a stake record never carries a reward type. *)
Theorem incoming_reward_type :
  (forall w wallet_height i ti,
      from_in_payment w wallet_height i = Ok ti ->
      let ptype := payment_details.m_type (snd i) in
      (m_reward_type ti = reward_type.miner <-> ptype = pay_type.miner) /\
      (m_reward_type ti = reward_type.service_node <->
         ptype = pay_type.service_node) /\
      (m_is_stake ti = true <-> ptype = pay_type.stake) /\
      (m_is_stake ti = true -> m_reward_type ti = reward_type.unspecified)) /\
  (forall w i ti,
      from_upayment w i = Ok ti ->
      let ptype := payment_details.m_type (pool_payment_details.m_pd (snd i)) in
      (m_reward_type ti = reward_type.miner <-> ptype = pay_type.miner) /\
      (m_reward_type ti = reward_type.service_node <->
         ptype = pay_type.service_node) /\
      (m_is_stake ti = true <-> ptype = pay_type.stake) /\
      (m_is_stake ti = true -> m_reward_type ti = reward_type.unspecified)).
Proof.
  assert (rule : forall ptype,
    (from_pay_type ptype = reward_type.miner <-> ptype = pay_type.miner) /\
    (from_pay_type ptype = reward_type.service_node <->
       ptype = pay_type.service_node) /\
    (pay_type.eqb ptype pay_type.stake = true <-> ptype = pay_type.stake) /\
    (pay_type.eqb ptype pay_type.stake = true ->
     from_pay_type ptype = reward_type.unspecified)).
  { intros []; simpl; repeat split; congruence. }
  split.
  - intros w wh i ti H ptype. produced H. apply rule.
  - intros w i ti H ptype. produced H. apply rule.
Qed.

(** X7.  When a loop body throws in the middle of the first source,
    [refresh] throws the same exception and leaves exactly the records
    of the entries before the failing one; the entries after it and the
    other three sources are not read. *)
Theorem refresh_throw_in_first_loop
    m_wallet h wallet_height done i rest l1 e :
  WalletImpl.blockChainHeight m_wallet = Ok wallet_height ->
  wallet2.get_payments (WalletImpl.wallet m_wallet) 0 UINT64_MAX
  = Ok (done ++ i :: rest) ->
  Forall2 (fun i ti =>
             from_in_payment (WalletImpl.wallet m_wallet) wallet_height i
             = Ok ti) done l1 ->
  from_in_payment (WalletImpl.wallet m_wallet) wallet_height i = Throw e ->
  refresh m_wallet h = (Throw e, l1).
Proof.
  intros Hh Hp F Hi. unfold refresh.
  rewrite call_then, Hh, clear_then, call_then, Hp, loop_then.
  rewrite (appended_throw _ _ _ _ _ _ F Hi). reflexivity.
Qed.

(** X8.  After a successful [refresh], every entry of the four sources
    is found by [transaction(id)] under the hex rendering of its
    transaction hash: the lookup returns a record with that hash. *)
Theorem refresh_then_lookup m_wallet h h' ps os us pool :
  refresh m_wallet h = (Ok tt, h') ->
  wallet2.get_payments (WalletImpl.wallet m_wallet) 0 UINT64_MAX = Ok ps ->
  wallet2.get_payments_out (WalletImpl.wallet m_wallet) 0 UINT64_MAX
  = Ok os ->
  wallet2.get_unconfirmed_payments_out (WalletImpl.wallet m_wallet)
  = Ok us ->
  wallet2.get_unconfirmed_payments (WalletImpl.wallet m_wallet) = Ok pool ->
  forall id,
    (exists i, In i ps /\
               id = type_to_hex (payment_details.m_tx_hash (snd i))) \/
    (exists i, In i os /\ id = type_to_hex (fst i)) \/
    (exists i, In i us /\ id = type_to_hex (fst i)) \/
    (exists i, In i pool /\
               id = type_to_hex
                      (payment_details.m_tx_hash
                         (pool_payment_details.m_pd (snd i)))) ->
    exists ti, transaction_by_id h' id = Some ti /\ m_hash ti = id.
Proof.
  intros Hr Hp Ho Hu Hq id Hid.
  destruct (refresh_Ok_inv _ _ _ Hr)
    as (wh & ps' & os' & us' & pool' & l1 & l2 & l3 & l4
        & _ & Hp' & Ho' & Hu' & Hq' & F1 & F2 & F3 & F4 & ->).
  rewrite Hp in Hp'. injection Hp' as <-.
  rewrite Ho in Ho'. injection Ho' as <-.
  rewrite Hu in Hu'. injection Hu' as <-.
  rewrite Hq in Hq'. injection Hq' as <-.
  assert (Hti : exists ti, In ti (l1 ++ l2 ++ l3 ++ l4) /\ m_hash ti = id).
  { destruct Hid as [(i & Hin & ->)|[(i & Hin & ->)|[(i & Hin & ->)
                                                    |(i & Hin & ->)]]].
    - destruct (Forall2_In_l _ _ _ _ F1 Hin) as (ti & Ht & H).
      exists ti. split; [rewrite !in_app_iff; auto|]. now produced H.
    - destruct (Forall2_In_l _ _ _ _ F2 Hin) as (ti & Ht & H).
      exists ti. split; [rewrite !in_app_iff; auto|]. now produced H.
    - destruct (Forall2_In_l _ _ _ _ F3 Hin) as (ti & Ht & H).
      exists ti. split; [rewrite !in_app_iff; auto|]. now produced H.
    - destruct (Forall2_In_l _ _ _ _ F4 Hin) as (ti & Ht & H).
      exists ti. split; [rewrite !in_app_iff; auto|]. now produced H. }
  destruct Hti as (ti & Hin & <-). now apply found_by_hash.
Qed.

End More.

(** ** The further properties on the sample wallets *)

Lemma display_payment_id_idempotent_witness :
  display_payment_id Sample.padded_id = Ok "a1b2c3d4e5f6a7b8"%string /\
  display_payment_id "a1b2c3d4e5f6a7b8" = Ok "a1b2c3d4e5f6a7b8"%string /\
  (16 <= String.length "a1b2c3d4e5f6a7b8"
   <= String.length Sample.padded_id)%nat.
Proof.
  assert (H : display_payment_id Sample.padded_id
              = Ok "a1b2c3d4e5f6a7b8"%string) by reflexivity.
  split; [exact H|].
  exact (display_payment_id_idempotent Sample.padded_id _ H).
Defined.

Lemma short_payment_id_throws_witness :
  from_in_payment Sample.w 100 Sample.in_payment_short = Throw out_of_range.
Proof.
  apply (proj1 (short_payment_id_throws (hash := string)
                  (network_type := unit))).
  vm_compute. lia.
Defined.

Lemma outgoing_amount_net_witness :
  from_out_payment Sample.w 100 Sample.out_payment_underflow
  = Ok Sample.ti_underflow /\
  m_amount Sample.ti_underflow = 110 - known_change 0.
Proof.
  assert (H : from_out_payment Sample.w 100 Sample.out_payment_underflow
              = Ok Sample.ti_underflow) by (vm_compute; reflexivity).
  split; [exact H|].
  apply (proj1 (outgoing_amount_net (hash := string) (network_type := unit))
           Sample.w 100 Sample.out_payment_underflow Sample.ti_underflow H);
    simpl; unfold known_change, UINT64_MAX; simpl; lia.
Defined.

Lemma confirmed_transfers_witness :
  from_out_payment Sample.w 100 Sample.out_payment = Ok Sample.ti2 /\
  map fst (m_transfers Sample.ti2)
  = map tx_destination_entry.amount
      (confirmed_transfer_details.m_dests (snd Sample.out_payment)).
Proof.
  assert (H : from_out_payment Sample.w 100 Sample.out_payment
              = Ok Sample.ti2) by (vm_compute; reflexivity).
  split; [exact H|].
  exact (proj1 (confirmed_transfers Sample.w 100 Sample.out_payment
                  Sample.ti2 H)).
Defined.

Lemma outgoing_label_witness :
  from_out_payment Sample.w 100 Sample.out_payment = Ok Sample.ti2 /\
  wallet2.get_subaddress_label Sample.w {| major := 0; minor := 2 |}
  = Ok (m_label Sample.ti2).
Proof.
  assert (H : from_out_payment Sample.w 100 Sample.out_payment
              = Ok Sample.ti2) by (vm_compute; reflexivity).
  split; [exact H|].
  exact (proj2 (proj1 (outgoing_label (hash := string) (network_type := unit))
                  Sample.w 100 Sample.out_payment Sample.ti2 H)
           2 eq_refl).
Defined.

Lemma incoming_reward_type_witness :
  from_upayment Sample.w Sample.upayment = Ok Sample.ti4 /\
  m_reward_type Sample.ti4 = reward_type.unspecified.
Proof.
  assert (H : from_upayment Sample.w Sample.upayment = Ok Sample.ti4)
    by (vm_compute; reflexivity).
  split; [exact H|].
  apply (proj2 (incoming_reward_type (hash := string) (network_type := unit))
           Sample.w Sample.upayment Sample.ti4 H).
  reflexivity.
Defined.

Lemma refresh_throw_in_first_loop_witness :
  refresh Sample.m_wallet_unlabelled [Sample.ti3; Sample.ti4]
  = (Throw (wallet_error "no label"), [Sample.ti1]).
Proof.
  apply (refresh_throw_in_first_loop Sample.m_wallet_unlabelled
           [Sample.ti3; Sample.ti4] 100 [Sample.in_payment]
           Sample.in_payment_unlabelled [Sample.in_payment]).
  - reflexivity.
  - reflexivity.
  - constructor; [vm_compute; reflexivity|constructor].
  - vm_compute. reflexivity.
Defined.

Lemma refresh_then_lookup_witness :
  exists ti,
    transaction_by_id [Sample.ti1; Sample.ti2; Sample.ti3; Sample.ti4]
      Sample.tx3 = Some ti /\
    m_hash ti = Sample.tx3.
Proof.
  apply (refresh_then_lookup Sample.m_wallet []
           [Sample.ti1; Sample.ti2; Sample.ti3; Sample.ti4]
           [Sample.in_payment] [Sample.out_payment] [Sample.upayment_out]
           [Sample.upayment]).
  - vm_compute. reflexivity.
  - reflexivity.
  - reflexivity.
  - reflexivity.
  - reflexivity.
  - right. right. left. exists Sample.upayment_out.
    split; [simpl; auto|reflexivity].
Defined.
